(** * Retail sale analysis dashboard: the computation layer of [retail_dashb.py]

    The script loads a sales table, filters it, and derives KPIs, grouped
    aggregates and a few insight sentences from the filtered frame.  This
    development embeds that computation: a DataFrame is the list of its rows,
    a column is the list of one field, and pandas' reductions are written
    out with the conventions the script relies on (NaN skipped by [mean],
    missing labels filled by [reindex], right-closed bins in [cut]).

    Numbers are read in two ways.  Where a statement is about which rows,
    keys or labels a table has, about their order, or about a division by
    zero, the amounts [total_sale] and [cogs] are exact rationals and every
    value obtained by a division is an [fval], a rational extended with the
    IEEE specials that a division by zero produces.  Where a statement
    compares or prints a computed number, the columns are float64 values
    with the machine's operations (module [Binary64]).  SQL NULLs are
    outside the row type.  A calendar date is its day number counted from
    1970-01-01.

    Two things are the installed pandas' choice and not the script's: the
    dates a datetime64 column can hold, and whether a group-by on a
    categorical column lists the categories without rows.  They are the
    fields of [Pandas]. *)

From Stdlib Require Import List ZArith QArith Qabs Bool Lia Lqa.
From Stdlib Require Import String Ascii DecimalString.
From Stdlib Require Import Permutation Sorted.
From Stdlib Require OrderedTypeEx.
From Stdlib Require Import PrimFloat FloatOps SpecFloat Uint63.
Import ListNotations.

Local Open Scope Z_scope.

(** ** Extended values: what float arithmetic yields on a division by zero *)

Module FVal.

Inductive fval : Type :=
  | Fin (q : Q)
  | PosInf
  | NegInf
  | NaN.

(** Equality of values up to the representation of a rational. *)
Definition feq (a b : fval) : Prop :=
  match a, b with
  | Fin x, Fin y => (x == y)%Q
  | PosInf, PosInf => True
  | NegInf, NegInf => True
  | NaN, NaN => True
  | _, _ => False
  end.

Definition isnan (a : fval) : bool :=
  match a with NaN => true | _ => false end.

Definition notna (a : fval) : bool := negb (isnan a).

Definition Qis_zero (q : Q) : bool := Qeq_bool q 0.
Definition Qltb (a b : Q) : bool := negb (Qle_bool b a).

(** [a / b] on two finite numbers, as numpy computes it: a zero divisor
    gives nan for 0/0 and a signed infinity otherwise. *)
Definition qdiv (a b : Q) : fval :=
  if Qis_zero b then
    (if Qis_zero a then NaN else if Qltb 0 a then PosInf else NegInf)
  else Fin (a / b).

Definition fadd (a b : fval) : fval :=
  match a, b with
  | NaN, _ | _, NaN => NaN
  | Fin x, Fin y => Fin (x + y)
  | PosInf, NegInf | NegInf, PosInf => NaN
  | PosInf, _ | _, PosInf => PosInf
  | NegInf, _ | _, NegInf => NegInf
  end.

(** [a * c] for a finite constant [c]. *)
Definition fscale (a : fval) (c : Q) : fval :=
  match a with
  | Fin x => Fin (x * c)
  | NaN => NaN
  | PosInf => if Qis_zero c then NaN else if Qltb 0 c then PosInf else NegInf
  | NegInf => if Qis_zero c then NaN else if Qltb 0 c then NegInf else PosInf
  end.

(** [a / n] for a positive count [n]. *)
Definition fdiv_count (a : fval) (n : nat) : fval :=
  match a with
  | Fin x => Fin (x / inject_Z (Z.of_nat n))
  | other => other
  end.

(** [a < c] and [a > c]; every comparison with nan is False. *)
Definition flt (a : fval) (c : Q) : bool :=
  match a with
  | Fin x => Qltb x c
  | NegInf => true
  | PosInf | NaN => false
  end.

Definition fgt (a : fval) (c : Q) : bool :=
  match a with
  | Fin x => Qltb c x
  | PosInf => true
  | NegInf | NaN => false
  end.

End FVal.
Import FVal.

(** ** Exceptions *)

Inductive exn (A : Type) : Type :=
  | Ret (a : A)
  | Raise (msg : string).
Arguments Ret {A} a.
Arguments Raise {A} msg.

Definition bind {A B : Type} (m : exn A) (f : A -> exn B) : exn B :=
  match m with
  | Ret a => f a
  | Raise e => Raise e
  end.

Notation "x <- m ;; k" := (bind m (fun x => k))
  (at level 61, m at next level, right associativity).

(** [try: m except Exception: h]. *)
Definition try_except {A : Type} (m : exn A) (h : string -> A) : A :=
  match m with
  | Ret a => a
  | Raise e => h e
  end.

Fixpoint mapM {A B : Type} (f : A -> exn B) (l : list A) : exn (list B) :=
  match l with
  | [] => Ret []
  | x :: t => y <- f x ;; ys <- mapM f t ;; Ret (y :: ys)
  end.

(** ** Calendar fields of a day number ([.dt.year], [.dt.month], ...) *)

Module Calendar.

(** Proleptic Gregorian (year, month, day) of a day number. *)
Definition civil_of_days (days : Z) : Z * Z * Z :=
  let z := days + 719468 in
  let era := z / 146097 in
  let doe := z - era * 146097 in
  let yoe := (doe - doe / 1460 + doe / 36524 - doe / 146096) / 365 in
  let doy := doe - (365 * yoe + yoe / 4 - yoe / 100) in
  let mp := (5 * doy + 2) / 153 in
  let d := doy - (153 * mp + 2) / 5 + 1 in
  let m := if mp <? 10 then mp + 3 else mp - 9 in
  let y := yoe + era * 400 + (if m <=? 2 then 1 else 0) in
  (y, m, d).

Definition year_of (days : Z) : Z := fst (fst (civil_of_days days)).
Definition month_of (days : Z) : Z := snd (fst (civil_of_days days)).
Definition quarter_of (days : Z) : Z := (month_of days - 1) / 3 + 1.

Definition day_names : list string :=
  ["Monday"; "Tuesday"; "Wednesday"; "Thursday"; "Friday"; "Saturday";
   "Sunday"]%string.

(** 1970-01-01 was a Thursday. *)
Definition day_name (days : Z) : string :=
  nth (Z.to_nat ((days + 3) mod 7)) day_names ""%string.

End Calendar.

(** ** Rows *)

(** A [sale_date] cell as the database hands it over. *)
Inductive raw_date : Type :=
  | DateOf (day : Z)
  | BadDate (text : string).

Record RawRow : Type := mkRawRow {
  raw_transaction_id : Z;
  raw_sale_date : raw_date;
  raw_customer_id : Z;
  raw_gender : string;
  raw_age : Z;
  raw_category : string;
  raw_total_sale : Q;
  raw_cogs : Q
}.

(** The result of [SELECT * FROM RETAIL_SALES]: the columns that the table
    really has, and its rows; the field of an absent column is padding
    and stands for no value. *)
Record RawFrame : Type := mkRawFrame {
  raw_columns : list string;
  raw_rows : list RawRow
}.

(** A row of the frame that [load_retail_data] returns. *)
Record Row : Type := mkRow {
  transaction_id : Z;
  sale_date : Z;
  customer_id : Z;
  gender : string;
  age : Z;
  category : string;
  total_sale : Q;
  cogs : Q;
  year : Z;
  month : Z;
  quarter : Z;
  week_day : string;
  profit : Q;
  profit_margin : fval
}.

Definition DataFrame : Type := list Row.

(** [df.empty] *)
Definition empty {A : Type} (df : list A) : bool :=
  match df with [] => true | _ => false end.

(** ** Series reductions *)

Module Series.

(** [s.sum()] on a column of finite numbers. *)
Definition sum (s : list Q) : Q := fold_right Qplus 0%Q s.

(** [s.mean()] on a column of finite numbers: nan on an empty column. *)
Definition mean (s : list Q) : fval :=
  match s with
  | [] => NaN
  | _ => Fin (sum s / inject_Z (Z.of_nat (List.length s)))
  end.

Definition fsum (s : list fval) : fval := fold_right fadd (Fin 0) s.

(** [s.mean()] on a float column: nan entries are skipped ([skipna=True]),
    infinities are not; nan when nothing is left. *)
Definition fmean (s : list fval) : fval :=
  let kept := filter notna s in
  match kept with
  | [] => NaN
  | _ => fdiv_count (fsum kept) (List.length kept)
  end.

(** [s.max()] and [s.min()] on a non-empty date column. *)
Definition zmax (d : Z) (s : list Z) : Z := fold_right Z.max d s.
Definition zmin (d : Z) (s : list Z) : Z := fold_right Z.min d s.

Section Unique.
Context {K : Type} (eqb : K -> K -> bool).

Definition isin (x : K) (l : list K) : bool := existsb (eqb x) l.

(** [s.unique()]: the distinct values in order of first appearance. *)
Fixpoint unique_acc (seen : list K) (s : list K) : list K :=
  match s with
  | [] => []
  | x :: t =>
      if isin x seen then unique_acc seen t
      else x :: unique_acc (x :: seen) t
  end.

Definition unique (s : list K) : list K := unique_acc [] s.

(** [s.nunique()] *)
Definition nunique (s : list K) : nat := List.length (unique s).
End Unique.

End Series.

(** ** Number formatting of the f-strings *)

Module Format.

(** Decimal digits of a natural number. *)
Definition digits (n : Z) : string :=
  NilZero.string_of_uint (N.to_uint (Z.to_N n)).

(** Thousands separators, inserted from the right. *)
Fixpoint group3 (rev_digits : list ascii) (k : nat) : list ascii :=
  match rev_digits with
  | [] => []
  | c :: t =>
      match k with
      | O => ","%char :: c :: group3 t 2
      | S k' => c :: group3 t k'
      end
  end.

Definition with_commas (s : string) : string :=
  string_of_list_ascii (rev (group3 (rev (list_ascii_of_string s)) 3)).

Definition pad2 (n : Z) : string :=
  if n <? 10 then ("0" ++ digits n)%string else digits n.

(** Nearest integer, ties to even, of a non-negative rational. *)
Definition round_half_even (q : Q) : Z :=
  let n := Qnum q in
  let d := Zpos (Qden q) in
  let fl := n / d in
  let twice_rem := 2 * (n - fl * d) in
  if twice_rem <? d then fl
  else if d <? twice_rem then fl + 1
  else if Z.even fl then fl else fl + 1.

(** The [.2f] presentation of a finite number, with or without [,]. *)
Definition fixed2 (commas : bool) (q : Q) : string :=
  let cents := round_half_even (Qabs q * 100) in
  let whole := digits (cents / 100) in
  ((if Qle_bool 0 q then "" else "-")
   ++ (if commas then with_commas whole else whole)
   ++ "." ++ pad2 (cents mod 100))%string.

(** [f"{x:.2f}"] and [f"{x:,.2f}"] on a float. *)
Definition float2 (commas : bool) (a : fval) : string :=
  match a with
  | Fin q => fixed2 commas q
  | PosInf => "inf"
  | NegInf => "-inf"
  | NaN => "nan"
  end.

(** [f"{n:,}"] on a count. *)
Definition count (n : nat) : string := with_commas (digits (Z.of_nat n)).

End Format.

(** ** Loading and preprocessing: [load_retail_data] *)

(** What [pd.read_sql] meets: a failing connection or query, or a table. *)
Inductive source : Type :=
  | Unavailable (err : string)
  | Table (t : RawFrame).

Definition read_sql (src : source) : exn RawFrame :=
  match src with
  | Unavailable err => Raise err
  | Table t => Ret t
  end.

(** [df[c]] raises KeyError on a column the frame does not have. *)
Definition getitem (t : RawFrame) (c : string) : exn unit :=
  if Series.isin String.eqb c (raw_columns t) then Ret tt
  else Raise ("KeyError: " ++ c)%string.

(** What the script leaves to the installed pandas: the days that the
    datetime64 column made by [pd.to_datetime] can hold, and the default of
    [observed] in a group-by on a categorical column. *)
Record Pandas : Type := mkPandas {
  representable : Z -> bool;
  observed : bool
}.

(** pandas 2: nanoseconds in 64 bits, that is 1677-09-22 to 2262-04-11,
    and [observed=False]. *)
Definition pandas2 : Pandas :=
  {| representable := fun day => (-106751 <=? day) && (day <=? 106751);
     observed := false |}.

(** pandas 3: [observed=True]; every date of the years 1 to 9999 is held. *)
Definition pandas3 : Pandas :=
  {| representable := fun day => (-719162 <=? day) && (day <=? 2932896);
     observed := true |}.

(** [pd.to_datetime] on one cell. *)
Definition to_datetime (pd : Pandas) (d : raw_date) : exn Z :=
  match d with
  | DateOf day =>
      if representable pd day then Ret day
      else Raise "Out of bounds nanosecond timestamp"
  | BadDate text => Raise ("Unknown datetime string format: " ++ text)%string
  end.

Definition derive (r : RawRow) (day : Z) : Row :=
  let p := (raw_total_sale r - raw_cogs r)%Q in
  {| transaction_id := raw_transaction_id r;
     sale_date := day;
     customer_id := raw_customer_id r;
     gender := raw_gender r;
     age := raw_age r;
     category := raw_category r;
     total_sale := raw_total_sale r;
     cogs := raw_cogs r;
     year := Calendar.year_of day;
     month := Calendar.month_of day;
     quarter := Calendar.quarter_of day;
     week_day := Calendar.day_name day;
     profit := p;
     profit_margin := fscale (qdiv p (raw_total_sale r)) 100 |}.

(** The body of the [try] block.  It reads the columns [sale_date],
    [total_sale] and [cogs] and no other. *)
Definition load_body (pd : Pandas) (src : source) : exn DataFrame :=
  df <- read_sql src ;;
  _ <- getitem df "sale_date" ;;
  days <- mapM (to_datetime pd) (map raw_sale_date (raw_rows df)) ;;
  _ <- getitem df "total_sale" ;;
  _ <- getitem df "cogs" ;;
  Ret (map (fun rd => derive (fst rd) (snd rd)) (combine (raw_rows df) days)).

(** What the page shows. *)
Inductive ui : Type :=
  | Error (text : string)
  | Success (text : string).

(** [load_retail_data]: the loaded frame or None, and the message shown. *)
Definition load_retail_data (pd : Pandas) (src : source)
  : option DataFrame * list ui :=
  try_except
    (df <- load_body pd src ;;
     Ret (Some df,
          [Success ("Data loaded: " ++ Format.count (List.length df)
                    ++ " records")%string]))
    (fun e => (None, [Error ("Database Connection Failed: " ++ e)%string])).

(** ** [calculate_kpis] *)

Record Kpis : Type := mkKpis {
  total_revenue : Q;
  total_transactions : nat;
  avg_transaction : fval;
  total_profit : Q;
  kpi_profit_margin : fval;
  unique_customers : nat;
  avg_revenue_per_customer : fval;
  date_range_days : Z
}.

Definition col {A B : Type} (f : A -> B) (df : list A) : list B := map f df.

(** [(s.max() - s.min()).days + 1] *)
Definition days_spanned (s : list Z) : Z :=
  match s with
  | [] => 0
  | d :: _ => Series.zmax d s - Series.zmin d s + 1
  end.

Definition calculate_kpis (df : option DataFrame) : option Kpis :=
  match df with
  | None => None
  | Some df =>
      if empty df then None
      else
        Some
          {| total_revenue := Series.sum (col total_sale df);
             total_transactions := List.length df;
             avg_transaction := Series.mean (col total_sale df);
             total_profit := Series.sum (col profit df);
             kpi_profit_margin :=
               fscale (qdiv (Series.sum (col profit df))
                            (Series.sum (col total_sale df))) 100;
             unique_customers := Series.nunique Z.eqb (col customer_id df);
             avg_revenue_per_customer :=
               qdiv (Series.sum (col total_sale df))
                    (inject_Z
                       (Z.of_nat (Series.nunique Z.eqb (col customer_id df))));
             date_range_days := days_spanned (col sale_date df) |}
  end.

(** ** The sidebar filter: [filtered_data] *)

Record Criteria : Type := mkCriteria {
  date_from : Z;
  date_to : Z;
  selected_categories : list string;
  selected_genders : list string
}.

(** Elementwise [&] of two boolean columns of the same frame. *)
Fixpoint mask_and (a b : list bool) : list bool :=
  match a, b with
  | x :: a', y :: b' => (x && y) :: mask_and a' b'
  | _, _ => []
  end.

(** [df[mask]]: the rows whose mask entry is True, in frame order. *)
Fixpoint boolean_index {A : Type} (df : list A) (mask : list bool) : list A :=
  match df, mask with
  | r :: df', true :: mask' => r :: boolean_index df' mask'
  | _ :: df', false :: mask' => boolean_index df' mask'
  | _, _ => []
  end.

Definition filtered_data (retail_data : DataFrame) (c : Criteria) : DataFrame :=
  boolean_index retail_data
    (mask_and
       (mask_and
          (mask_and
             (map (fun d => date_from c <=? d) (col sale_date retail_data))
             (map (fun d => d <=? date_to c) (col sale_date retail_data)))
          (map (fun k => Series.isin String.eqb k (selected_categories c))
               (col category retail_data)))
       (map (fun g => Series.isin String.eqb g (selected_genders c))
            (col gender retail_data))).

(** The widgets' default values on a loaded frame; an empty frame has no
    minimum date to offer. *)
Definition default_criteria (retail_data : DataFrame) : option Criteria :=
  match col sale_date retail_data with
  | [] => None
  | d :: s =>
      Some
        {| date_from := Series.zmin d (d :: s);
           date_to := Series.zmax d (d :: s);
           selected_categories :=
             Series.unique String.eqb (col category retail_data);
           selected_genders :=
             Series.unique String.eqb (col gender retail_data) |}
  end.

(** The rule of the filter in the words of the specification. *)
Definition retained (c : Criteria) (r : Row) : Prop :=
  date_from c <= sale_date r <= date_to c
  /\ In (category r) (selected_categories c)
  /\ In (gender r) (selected_genders c).

Definition retainedb (c : Criteria) (r : Row) : bool :=
  (date_from c <=? sale_date r) && (sale_date r <=? date_to c)
  && Series.isin String.eqb (category r) (selected_categories c)
  && Series.isin String.eqb (gender r) (selected_genders c).

(** The full-range, all-categories, all-genders criteria for a frame. *)
Definition covers (c : Criteria) (df : DataFrame) : Prop :=
  forall r, In r df -> retained c r.

(** ** Sorting and grouping *)

Section StableSort.
Context {A : Type} (leb : A -> A -> bool).

Fixpoint insert_sorted (x : A) (l : list A) : list A :=
  match l with
  | [] => [x]
  | y :: t => if leb x y then x :: y :: t else y :: insert_sorted x t
  end.

(** A stable sort: of two rows that compare equal the earlier stays first. *)
Fixpoint stable_sort (l : list A) : list A :=
  match l with
  | [] => []
  | x :: t => insert_sorted x (stable_sort t)
  end.
End StableSort.

Definition Grouped : Type := list (string * Q).

(** The group keys of [groupby(key)]: the distinct keys, sorted. *)
Definition group_keys (keys : list string) : list string :=
  stable_sort String.leb (Series.unique String.eqb keys).

Definition rows_of {A : Type} (key : A -> string) (k : string) (df : list A)
  : list A :=
  filter (fun r => String.eqb (key r) k) df.

(** [df.groupby(key)[val].sum()] *)
Definition groupby_sum (key : Row -> string) (val : Row -> Q) (df : DataFrame)
  : Grouped :=
  map (fun k => (k, Series.sum (col val (rows_of key k df))))
      (group_keys (col key df)).

(** [s.sort_values(ascending=False)] *)
Definition sort_values_desc (g : Grouped) : Grouped :=
  stable_sort (fun a b => Qle_bool (snd b) (snd a)) g.

Fixpoint lookup (k : string) (g : Grouped) : option Q :=
  match g with
  | [] => None
  | (k', v) :: t => if String.eqb k k' then Some v else lookup k t
  end.

(** [s.reindex(labels)]: one entry per label, nan where the label is absent. *)
Definition reindex (labels : list string) (g : Grouped)
  : list (string * fval) :=
  map (fun l => (l, match lookup l g with Some v => Fin v | None => NaN end))
      labels.

(** [s.idxmax()] and [s.max()]: the first label that carries the maximum. *)
Fixpoint best_from (best : string * Q) (g : Grouped) : string * Q :=
  match g with
  | [] => best
  | kv :: t => if Qltb (snd best) (snd kv) then best_from kv t
               else best_from best t
  end.

Definition idxmax (g : Grouped) : exn string :=
  match g with
  | [] => Raise "ValueError: attempt to get argmax of an empty sequence"
  | kv :: t => Ret (fst (best_from kv t))
  end.

Definition smax (g : Grouped) : fval :=
  match g with
  | [] => NaN
  | kv :: t => Fin (snd (best_from kv t))
  end.


(** ** The charts' aggregates *)

(** Revenue by category. *)
Definition category_sales (df : DataFrame) : Grouped :=
  sort_values_desc (groupby_sum category total_sale df).

(** Sales by day of week. *)
Definition weekday_sales (df : DataFrame) : list (string * fval) :=
  reindex Calendar.day_names (groupby_sum week_day total_sale df).

(** Sales by gender. *)
Definition gender_sales (df : DataFrame) : Grouped :=
  groupby_sum gender total_sale df.

Definition age_bins : list Z := [0; 25; 35; 45; 55; 100].
Definition age_labels : list string :=
  ["18-25"; "26-35"; "36-45"; "46-55"; "55+"]%string.

(** [pd.cut(x, bins, labels)] on one value: the label of the interval
    [(lo, hi]] that holds it, None (nan) when no interval does. *)
Fixpoint cut (x : Z) (bins : list Z) (labels : list string) : option string :=
  match bins, labels with
  | lo :: ((hi :: _) as rest), l :: labels' =>
      if (lo <? x) && (x <=? hi) then Some l else cut x rest labels'
  | _, _ => None
  end.

(** The frame after [filtered_data['age_group'] = pd.cut(...)]. *)
Definition with_age_group (df : DataFrame) : list (Row * option string) :=
  map (fun r => (r, cut (age r) age_bins age_labels)) df.

(** [groupby('age_group')[val].sum()] on the categorical column under
    [observed=False]: one group per category, in category order, an
    unobserved category summing to 0; rows without a category belong to no
    group. *)
Definition groupby_categorical_sum (categories : list string)
    (val : Row -> Q) (df : list (Row * option string)) : Grouped :=
  map (fun l =>
         (l, Series.sum
               (map (fun rg => val (fst rg))
                    (filter (fun rg => match snd rg with
                                       | Some g => String.eqb g l
                                       | None => false
                                       end) df))))
      categories.

Definition age_sales (df : DataFrame) : list (string * fval) :=
  reindex age_labels
    (groupby_categorical_sum age_labels total_sale (with_age_group df)).

(** The same group-by under [observed=True]: only the categories that
    have rows. *)
Definition has_rows (l : string) (df : list (Row * option string)) : bool :=
  existsb (fun rg => match snd rg with
                     | Some g => String.eqb g l
                     | None => false
                     end) df.

Definition groupby_observed_sum (categories : list string)
    (val : Row -> Q) (df : list (Row * option string)) : Grouped :=
  groupby_categorical_sum (filter (fun l => has_rows l df) categories) val df.

Definition age_sales_observed (df : DataFrame) : list (string * fval) :=
  reindex age_labels
    (groupby_observed_sum age_labels total_sale (with_age_group df)).

(** Sales by age group (lines 393-401): the script passes no [observed],
    so the installed pandas decides. *)
Definition age_sales_by (pd : Pandas) (df : DataFrame)
  : list (string * fval) :=
  if observed pd then age_sales_observed df else age_sales df.

(** [df.nlargest(n, key)] and [df.nsmallest(n, key)] with [keep='first']. *)
Definition nlargest {A : Type} (n : nat) (key : A -> Q) (df : list A)
  : list A :=
  firstn n (stable_sort (fun a b => Qle_bool (key b) (key a)) df).

Definition nsmallest {A : Type} (n : nat) (key : A -> Q) (df : list A)
  : list A :=
  firstn n (stable_sort (fun a b => Qle_bool (key a) (key b)) df).

(** The columns shown in the two tables. *)
Definition Shown : Type := Z * string * Q * Q * Q * fval.

Definition select_columns (r : Row) : Shown :=
  (transaction_id r, category r, total_sale r, cogs r, profit r,
   profit_margin r).

Definition shown_profit (t : Shown) : Q := snd (fst t).

Definition top_trans (df : DataFrame) : list Shown :=
  map select_columns (nlargest 5 profit df).

Definition bottom_trans (df : DataFrame) : list Shown :=
  map select_columns (nsmallest 5 profit df).

(** ** The executive snapshot: the KPIs computed inline for the page *)

Module Snapshot.

Record t : Type := mk {
  total_revenue : Q;
  total_cogs : Q;
  total_profit : Q;
  avg_transaction : fval;
  gross_profit_margin : fval;
  total_transactions : nat;
  unique_customers : nat;
  avg_revenue_per_customer : fval;
  avg_profit_per_transaction : fval;
  top_category : option string;
  top_category_revenue : fval;
  date_range_days : Z
}.

(** The body of [if not filtered_data.empty:]. *)
Definition compute (filtered_data : DataFrame) : exn t :=
  let total_revenue := Series.sum (col total_sale filtered_data) in
  let total_cogs := Series.sum (col cogs filtered_data) in
  let total_profit := Series.sum (col profit filtered_data) in
  let avg_transaction := Series.mean (col total_sale filtered_data) in
  let gross_profit_margin :=
    if negb (Qis_zero total_revenue)
    then fscale (qdiv total_profit total_revenue) 100
    else Fin 0 in
  let total_transactions := List.length filtered_data in
  let unique_customers := Series.nunique Z.eqb (col customer_id filtered_data) in
  let avg_revenue_per_customer :=
    if (0 <? unique_customers)%nat
    then qdiv total_revenue (inject_Z (Z.of_nat unique_customers))
    else Fin 0 in
  let avg_profit_per_transaction := Series.mean (col profit filtered_data) in
  top_category <-
    (if negb (empty filtered_data)
     then k <- idxmax (groupby_sum category total_sale filtered_data) ;;
          Ret (Some k)
     else Ret None) ;;
  let top_category_revenue :=
    if negb (empty filtered_data)
    then smax (groupby_sum category total_sale filtered_data)
    else Fin 0 in
  let date_range_days :=
    if (0 <? total_transactions)%nat
    then days_spanned (col sale_date filtered_data)
    else 0 in
  Ret (mk total_revenue total_cogs total_profit avg_transaction
          gross_profit_margin total_transactions unique_customers
          avg_revenue_per_customer avg_profit_per_transaction top_category
          top_category_revenue date_range_days).

End Snapshot.

(** ** [generate_auto_insights] *)

Definition no_data_line : string := "No data available for selected filters.".
Definition low_margin_line : string :=
  "Profit margins are relatively low — review pricing or costs.".
Definition high_margin_line : string :=
  "High profit margins — pricing strategy is working well.".

Definition revenue_line (total_rev : Q) : string :=
  ("Total revenue in this selection is **$"
   ++ Format.float2 true (Fin total_rev) ++ "**.")%string.
Definition category_line (top_cat : string) (top_cat_sales : fval) : string :=
  ("**" ++ top_cat ++ "** is the top category with $"
   ++ Format.float2 true top_cat_sales ++ " in sales.")%string.
Definition weekday_line (best_day : string) : string :=
  ("**" ++ best_day ++ "** has the highest sales in this period.")%string.
Definition margin_line (avg_margin : fval) : string :=
  ("Average profit margin is **" ++ Format.float2 false avg_margin
   ++ "%**.")%string.

Definition generate_auto_insights (df : DataFrame) : exn (list string) :=
  let insights := [] in
  if empty df then Ret [no_data_line]
  else
    let total_rev := Series.sum (col total_sale df) in
    top_cat <- idxmax (groupby_sum category total_sale df) ;;
    let top_cat_sales := smax (groupby_sum category total_sale df) in
    best_day <- idxmax (groupby_sum week_day total_sale df) ;;
    let avg_margin := Series.fmean (col profit_margin df) in
    let insights := insights ++ [revenue_line total_rev] in
    let insights := insights ++ [category_line top_cat top_cat_sales] in
    let insights := insights ++ [weekday_line best_day] in
    let insights := insights ++ [margin_line avg_margin] in
    let insights :=
      if flt avg_margin 20 then insights ++ [low_margin_line]
      else if fgt avg_margin 40 then insights ++ [high_margin_line]
      else insights in
    Ret insights.

(** ** The script after the load (lines 148-154) *)

(** The columns of the loaded frame: those of the table, and the derived
    ones that the table did not already have.  A row of the frame carries
    padding in a column that the frame lacks. *)
Definition derived_columns : list string :=
  ["year"; "month"; "quarter"; "week_day"; "profit"; "profit_margin"]%string.

Definition frame_columns (src : source) : list string :=
  match src with
  | Unavailable _ => []
  | Table t =>
      raw_columns t
      ++ filter (fun c => negb (Series.isin String.eqb c (raw_columns t)))
                derived_columns
  end.

(** The script either stops at [st.stop()] or goes on with the rest of the
    page, whatever that computes or raises on the frame and its columns. *)
Inductive run (A : Type) : Type :=
  | Stopped (messages : list ui)
  | Continued (messages : list ui) (page : A).

Arguments Stopped {A} messages.
Arguments Continued {A} messages page.

Definition script {A : Type} (pd : Pandas)
    (rest : list string -> DataFrame -> A) (src : source) : run A :=
  let (retail_data, messages) := load_retail_data pd src in
  match retail_data with
  | None =>
      Stopped
        (messages
         ++ [Error "Could not load data. Please check your database connection."])
  | Some df => Continued messages (rest (frame_columns src) df)
  end.

(** ** Vocabulary of the statements *)

(** The bucket test of one age group on a row. *)
Definition in_bucket (l : string) (r : Row) : bool :=
  match cut (age r) age_bins age_labels with
  | Some g => String.eqb g l
  | None => false
  end.


(** The fifth insight in the words of the specification. *)
Definition fifth_line (avg_margin : fval) : list string :=
  if flt avg_margin 20 then [low_margin_line]
  else if fgt avg_margin 40 then [high_margin_line]
  else [].

(** A table on which the preprocessing raises: a column it reads is
    missing, or a [sale_date] cell does not parse or cannot be held. *)
Definition is_bad_date (pd : Pandas) (d : raw_date) : bool :=
  match d with
  | BadDate _ => true
  | DateOf day => negb (representable pd day)
  end.

Definition malformed (pd : Pandas) (t : RawFrame) : bool :=
  negb (Series.isin String.eqb "sale_date"%string (raw_columns t))
  || existsb (is_bad_date pd) (map raw_sale_date (raw_rows t))
  || negb (Series.isin String.eqb "total_sale"%string (raw_columns t))
  || negb (Series.isin String.eqb "cogs"%string (raw_columns t)).

Definition fails (pd : Pandas) (src : source) : bool :=
  match src with
  | Unavailable _ => true
  | Table t => malformed pd t
  end.

(** ** Sample data *)

Definition all_columns : list string :=
  ["transaction_id"; "sale_date"; "customer_id"; "gender"; "age"; "category";
   "total_sale"; "cogs"]%string.

Definition sample_row (id day cust : Z) (g : string) (a : Z) (c : string)
    (sale cost : Q) : Row :=
  derive (mkRawRow id (DateOf day) cust g a c sale cost) day.

(** The two transactions of the specification's example, on 2024-01-01 and
    2024-01-02. *)
Definition two_sales : DataFrame :=
  [sample_row 1 19723 7 "Male" 34 "Clothing" 100 60;
   sample_row 2 19724 8 "Female" 52 "Beauty" 200 50].

(** One transaction that sold for nothing and cost nothing. *)
Definition zero_sale : DataFrame :=
  [sample_row 1 19723 7 "Male" 34 "Clothing" 0 0].


Definition everything : Criteria :=
  {| date_from := 19723; date_to := 19724;
     selected_categories := ["Clothing"; "Beauty"]%string;
     selected_genders := ["Male"; "Female"]%string |}.

(** A table with one unreadable date. *)
Definition bad_date_table : RawFrame :=
  {| raw_columns := all_columns;
     raw_rows := [mkRawRow 1 (BadDate "31/02/2024") 7 "Male" 34 "Clothing"
                           100 60] |}.

(** A table with a sale dated 1600-01-01. *)
Definition out_of_range_table : RawFrame :=
  {| raw_columns := all_columns;
     raw_rows := [mkRawRow 1 (DateOf (-135140)) 7 "Male" 34 "Clothing"
                           100 60] |}.

(** ** The remaining aggregates of the page *)

(** A row as the preprocessing leaves it: the derived columns are the ones
    computed from the stored columns. *)
Definition preprocessed (r : Row) : Prop :=
  year r = Calendar.year_of (sale_date r)
  /\ month r = Calendar.month_of (sale_date r)
  /\ quarter r = Calendar.quarter_of (sale_date r)
  /\ week_day r = Calendar.day_name (sale_date r)
  /\ profit r = (total_sale r - cogs r)%Q
  /\ profit_margin r = fscale (qdiv (profit r) (total_sale r)) 100.

(** [dt.to_period("M")]: the month of a date, counted from January 1970. *)
Definition to_period (day : Z) : Z :=
  (Calendar.year_of day - 1970) * 12 + (Calendar.month_of day - 1).

(** The day number of a civil date. *)
Definition days_of_civil (y m d : Z) : Z :=
  let y' := if m <=? 2 then y - 1 else y in
  let era := y' / 400 in
  let yoe := y' - era * 400 in
  let doy := (153 * (if 2 <? m then m - 3 else m + 9) + 2) / 5 + d - 1 in
  let doe := yoe * 365 + yoe / 4 - yoe / 100 + doy in
  era * 146097 + doe - 719468.

(** [dt.to_timestamp()] of a monthly period: the first day of the month. *)
Definition to_timestamp (p : Z) : Z :=
  days_of_civil (1970 + p / 12) (p mod 12 + 1) 1.

(** The group keys of a grouping by an integer key: distinct, ascending. *)
Definition group_keys_Z (keys : list Z) : list Z :=
  stable_sort Z.leb (Series.unique Z.eqb keys).

Definition rows_in_period (p : Z) (df : DataFrame) : DataFrame :=
  filter (fun r => to_period (sale_date r) =? p) df.

(** [groupby(sale_date.dt.to_period("M")).agg(total_sales=sum of
    total_sale, transaction_count=count of transaction_id)]. *)
Definition groupby_period (df : DataFrame) : list (Z * Q * nat) :=
  map (fun p => (p, Series.sum (col total_sale (rows_in_period p df)),
                 List.length (col transaction_id (rows_in_period p df))))
      (group_keys_Z (map to_period (col sale_date df))).

(** Monthly revenue trend: (sale_date, total_sales, transaction_count). *)
Definition monthly_sales (df : DataFrame) : list (Z * Q * nat) :=
  map (fun g => (to_timestamp (fst (fst g)), snd (fst g), snd g))
      (groupby_period df).

(** Category against average profitability:
    (category, avg_profit, total_sales). *)
Definition category_profit (df : DataFrame) : list (string * fval * Q) :=
  map (fun k => (k, Series.mean (col profit (rows_of category k df)),
                 Series.sum (col total_sale (rows_of category k df))))
      (group_keys (col category df)).

(** Lexicographic order and equality of (year, month) keys. *)
Definition pair_leb (a b : Z * Z) : bool :=
  (fst a <? fst b) || ((fst a =? fst b) && (snd a <=? snd b)).

Definition pair_eqb (a b : Z * Z) : bool :=
  (fst a =? fst b) && (snd a =? snd b).

Definition rows_in_month (ym : Z * Z) (df : DataFrame) : DataFrame :=
  filter (fun r => pair_eqb (year r, month r) ym) df.

(** [groupby(['year', 'month']).agg(total_sales, total_profit)]:
    (year, month, total_sales, total_profit). *)
Definition monthly_matrix (df : DataFrame) : list (Z * Z * Q * Q) :=
  map (fun ym => (fst ym, snd ym,
                  Series.sum (col total_sale (rows_in_month ym df)),
                  Series.sum (col profit (rows_in_month ym df))))
      (stable_sort pair_leb
         (Series.unique pair_eqb (map (fun r => (year r, month r)) df))).

Definition month_abbr : list string :=
  ["Jan"; "Feb"; "Mar"; "Apr"; "May"; "Jun"; "Jul"; "Aug"; "Sep"; "Oct";
   "Nov"; "Dec"]%string.

(** [datetime(1900, x, 1).strftime('%b')] *)
Definition month_name (x : Z) : exn string :=
  if (1 <=? x) && (x <=? 12)
  then Ret (nth (Z.to_nat (x - 1)) month_abbr ""%string)
  else Raise "ValueError: month must be in 1..12".

(** The frame with its [month_name] column. *)
Definition with_month_name (m : list (Z * Z * Q * Q))
  : exn (list (Z * string * Q)) :=
  mapM (fun g => match g with
                 | (y, mo, sales, _) =>
                     name <- month_name mo ;; Ret (y, name, sales)
                 end) m.

Record Pivot : Type := mkPivot {
  pivot_index : list Z;
  pivot_columns : list string;
  pivot_values : list (list fval)
}.

Definition cell_eqb (a b : Z * string) : bool :=
  (fst a =? fst b) && String.eqb (snd a) (snd b).

Fixpoint has_duplicates (cells : list (Z * string)) : bool :=
  match cells with
  | [] => false
  | c :: t => Series.isin cell_eqb c t || has_duplicates t
  end.

Fixpoint cell_lookup (c : Z * string) (entries : list (Z * string * Q))
  : fval :=
  match entries with
  | [] => NaN
  | (y, name, v) :: t =>
      if cell_eqb c (y, name) then Fin v else cell_lookup c t
  end.

(** [m.pivot(index='year', columns='month_name', values='total_sales')]:
    rows by ascending year, columns by ascending name, nan in the cells
    without an entry; two entries for one cell cannot be reshaped. *)
Definition pivot (entries : list (Z * string * Q)) : exn Pivot :=
  if has_duplicates (map fst entries)
  then Raise "ValueError: Index contains duplicate entries, cannot reshape"
  else
    let years := group_keys_Z (map (fun e => fst (fst e)) entries) in
    let names := group_keys (map (fun e => snd (fst e)) entries) in
    Ret {| pivot_index := years;
           pivot_columns := names;
           pivot_values :=
             map (fun y => map (fun n => cell_lookup (y, n) entries) names)
                 years |}.

(** Monthly revenue heatmap. *)
Definition pivot_sales (df : DataFrame) : exn Pivot :=
  named <- with_month_name (monthly_matrix df) ;;
  pivot named.

(** The stored columns of a raw row and of the loaded row. *)
Definition same_record (raw : RawRow) (r : Row) : Prop :=
  raw_sale_date raw = DateOf (sale_date r)
  /\ raw_transaction_id raw = transaction_id r
  /\ raw_customer_id raw = customer_id r
  /\ raw_gender raw = gender r
  /\ raw_age raw = age r
  /\ raw_category raw = category r
  /\ raw_total_sale raw = total_sale r
  /\ raw_cogs raw = cogs r.

(** The table that holds the two sample transactions. *)
Definition two_sales_table : RawFrame :=
  {| raw_columns := all_columns;
     raw_rows := [mkRawRow 1 (DateOf 19723) 7 "Male" 34 "Clothing" 100 60;
                  mkRawRow 2 (DateOf 19724) 8 "Female" 52 "Beauty" 200 50] |}.

(** The abbreviation of the month numbered [m] in 1..12. *)
Definition abbr (m : Z) : string :=
  nth (Z.to_nat (m - 1)) month_abbr ""%string.

(** The rows behind one cell of the heatmap: those of the year whose month
    carries the column's name. *)
Definition in_cell (y : Z) (n : string) (r : Row) : bool :=
  (year r =? y)
  && match month_name (month r) with
     | Ret name => String.eqb name n
     | Raise _ => false
     end.

Definition cell_value (df : DataFrame) (y : Z) (n : string) : fval :=
  match filter (in_cell y n) df with
  | [] => NaN
  | rows => Fin (Series.sum (col total_sale rows))
  end.

(** ** The numeric columns as float64

    Where a statement compares, adds up or prints computed numbers, their
    rounding matters.  This module reads the numeric columns as IEEE
    binary64 values with the machine's own operations.  How pandas adds up
    a column (its order of additions, its compensation) is not fixed by the
    script: the three reductions it calls are taken as they are, in a
    [Reductions] record. *)

Module Binary64.

Record Row : Type := mkRow {
  transaction_id : Z;
  sale_date : Z;
  customer_id : Z;
  gender : string;
  age : Z;
  category : string;
  total_sale : float;
  cogs : float;
  year : Z;
  month : Z;
  quarter : Z;
  week_day : string;
  profit : float;
  profit_margin : float
}.

Definition DataFrame : Type := list Row.

(** The derived columns of [load_retail_data] on one stored record. *)
Definition preprocess (id day customer : Z) (g : string) (a : Z) (c : string)
    (sale cost : float) : Row :=
  {| transaction_id := id;
     sale_date := day;
     customer_id := customer;
     gender := g;
     age := a;
     category := c;
     total_sale := sale;
     cogs := cost;
     year := Calendar.year_of day;
     month := Calendar.month_of day;
     quarter := Calendar.quarter_of day;
     week_day := Calendar.day_name day;
     profit := PrimFloat.sub sale cost;
     profit_margin :=
       PrimFloat.mul (PrimFloat.div (PrimFloat.sub sale cost) sale) 100 |}.

Record Reductions : Type := mkReductions {
  (** [s.sum()] *)
  sum : list float -> float;
  (** [s.mean()] *)
  mean : list float -> float;
  (** the sum of one group in [groupby(...)[...].sum()] *)
  group_sum : list float -> float
}.

Definition notna (x : float) : bool := PrimFloat.eqb x x.

Definition of_count (n : nat) : float :=
  PrimFloat.of_uint63 (Uint63.of_Z (Z.of_nat n)).

(** One implementation of the reductions: additions from left to right,
    the mean over the entries that are not nan. *)
Definition sequential_sum (s : list float) : float :=
  fold_left PrimFloat.add s 0%float.

Definition sequential_mean (s : list float) : float :=
  match filter notna s with
  | [] => PrimFloat.nan
  | kept => PrimFloat.div (sequential_sum kept) (of_count (List.length kept))
  end.

Definition sequential : Reductions :=
  {| sum := sequential_sum;
     mean := sequential_mean;
     group_sum := sequential_sum |}.

Definition Grouped : Type := list (string * float).

(** [df.groupby(key)[val].sum()] *)
Definition groupby_sum (P : Reductions) (key : Row -> string) (val : Row -> float)
    (df : DataFrame) : Grouped :=
  map (fun k => (k, group_sum P (col val (rows_of key k df))))
      (group_keys (col key df)).

(** [s.sort_values(ascending=False)] *)
Definition sort_values_desc (g : Grouped) : Grouped :=
  stable_sort (fun a b => PrimFloat.leb (snd b) (snd a)) g.

Fixpoint best_from (best : string * float) (g : Grouped) : string * float :=
  match g with
  | [] => best
  | kv :: t => if PrimFloat.ltb (snd best) (snd kv) then best_from kv t
               else best_from best t
  end.

(** [s.idxmax()] and [s.max()]: nan entries are skipped. *)
Definition idxmax (g : Grouped) : exn string :=
  match filter (fun kv => notna (snd kv)) g with
  | [] => Raise "ValueError: attempt to get argmax of an empty sequence"
  | kv :: t => Ret (fst (best_from kv t))
  end.

Definition smax (g : Grouped) : float :=
  match filter (fun kv => notna (snd kv)) g with
  | [] => PrimFloat.nan
  | kv :: t => snd (best_from kv t)
  end.

(** Revenue by category. *)
Definition category_sales (P : Reductions) (df : DataFrame) : Grouped :=
  sort_values_desc (groupby_sum P category total_sale df).

Record Kpis : Type := mkKpis {
  total_revenue : float;
  total_transactions : nat;
  avg_transaction : float;
  total_profit : float;
  kpi_profit_margin : float;
  unique_customers : nat;
  avg_revenue_per_customer : float;
  date_range_days : Z
}.

Definition calculate_kpis (P : Reductions) (df : option DataFrame)
  : option Kpis :=
  match df with
  | None => None
  | Some df =>
      if empty df then None
      else
        Some
          {| total_revenue := sum P (col total_sale df);
             total_transactions := List.length df;
             avg_transaction := mean P (col total_sale df);
             total_profit := sum P (col profit df);
             kpi_profit_margin :=
               PrimFloat.mul
                 (PrimFloat.div (sum P (col profit df))
                                (sum P (col total_sale df))) 100;
             unique_customers := Series.nunique Z.eqb (col customer_id df);
             avg_revenue_per_customer :=
               PrimFloat.div
                 (sum P (col total_sale df))
                 (of_count (Series.nunique Z.eqb (col customer_id df)));
             date_range_days := days_spanned (col sale_date df) |}
  end.

(** The exact value of a finite float. *)
Definition exact (negative : bool) (m : positive) (e : Z) : Q :=
  let magnitude :=
    if 0 <=? e then inject_Z (Zpos m * 2 ^ e)
    else Zpos m # Z.to_pos (2 ^ (- e)) in
  if negative then Qopp magnitude else magnitude.

(** [f"{x:.2f}"] and [f"{x:,.2f}"]: the nearest two-decimal number to the
    float's exact value. *)
Definition float2 (commas : bool) (x : float) : string :=
  match FloatOps.Prim2SF x with
  | S754_nan => "nan"
  | S754_infinity negative => if negative then "-inf" else "inf"
  | S754_zero negative => if negative then "-0.00" else "0.00"
  | S754_finite negative m e => Format.fixed2 commas (exact negative m e)
  end.

Definition generate_auto_insights (P : Reductions) (df : DataFrame)
  : exn (list string) :=
  let insights := [] in
  if empty df then Ret ["No data available for selected filters."%string]
  else
    let total_rev := sum P (col total_sale df) in
    top_cat <- idxmax (groupby_sum P category total_sale df) ;;
    let top_cat_sales := smax (groupby_sum P category total_sale df) in
    best_day <- idxmax (groupby_sum P week_day total_sale df) ;;
    let avg_margin := mean P (col profit_margin df) in
    let insights :=
      insights ++ [("Total revenue in this selection is **$"
                    ++ float2 true total_rev ++ "**.")%string] in
    let insights :=
      insights ++ [("**" ++ top_cat ++ "** is the top category with $"
                    ++ float2 true top_cat_sales ++ " in sales.")%string] in
    let insights :=
      insights ++ [("**" ++ best_day
                    ++ "** has the highest sales in this period.")%string] in
    let insights :=
      insights ++ [("Average profit margin is **"
                    ++ float2 false avg_margin ++ "%**.")%string] in
    let insights :=
      if PrimFloat.ltb avg_margin 20
      then insights
             ++ ["Profit margins are relatively low — review pricing or costs."%string]
      else if PrimFloat.ltb 40 avg_margin
      then insights
             ++ ["High profit margins — pricing strategy is working well."%string]
      else insights in
    Ret insights.


End Binary64.

(** Sample frames in float64. *)
Set Warnings "-inexact-float".




(** * Properties *)

(** ** Lists, sorting, grouping *)

Section StableSortFacts.
Context {A : Type} (leb : A -> A -> bool).

Lemma insert_sorted_perm (x : A) (l : list A) :
  Permutation (x :: l) (insert_sorted leb x l).
Proof.
  induction l as [|y t IH]; simpl; [reflexivity|].
  destruct (leb x y); [reflexivity|].
  rewrite perm_swap. now apply perm_skip.
Qed.

Lemma stable_sort_perm (l : list A) : Permutation l (stable_sort leb l).
Proof.
  induction l as [|x t IH]; simpl; [constructor|].
  rewrite <- insert_sorted_perm. now apply perm_skip.
Qed.

Lemma stable_sort_length (l : list A) :
  List.length (stable_sort leb l) = List.length l.
Proof. symmetry. apply Permutation_length, stable_sort_perm. Qed.

Lemma stable_sort_In (x : A) (l : list A) :
  In x (stable_sort leb l) <-> In x l.
Proof.
  split; apply Permutation_in;
    [symmetry|]; apply stable_sort_perm.
Qed.

(** Rows that the order does not separate keep their relative order. *)
Lemma insert_sorted_filter (P : A -> bool) (x : A) (l : list A) :
  (forall y, P x = true -> P y = true -> leb x y = true) ->
  filter P (insert_sorted leb x l) = filter P (x :: l).
Proof.
  intros tie. induction l as [|y t IH]; [reflexivity|].
  cbn [insert_sorted]. destruct (leb x y) eqn:cmp; [reflexivity|].
  cbn [filter] in *. rewrite IH.
  destruct (P x) eqn:px; [|reflexivity].
  destruct (P y) eqn:py; [|reflexivity].
  rewrite (tie y eq_refl py) in cmp. discriminate.
Qed.

Lemma stable_sort_filter (P : A -> bool) (l : list A) :
  (forall x y, P x = true -> P y = true -> leb x y = true) ->
  filter P (stable_sort leb l) = filter P l.
Proof.
  intros tie. induction l as [|x t IH]; [reflexivity|].
  cbn [stable_sort]. rewrite insert_sorted_filter by (apply tie).
  cbn [filter]. now rewrite IH.
Qed.

Hypothesis leb_total : forall x y, leb x y = false -> leb y x = true.
Hypothesis leb_trans :
  forall x y z, leb x y = true -> leb y z = true -> leb x z = true.

Let ordered (x y : A) : Prop := leb x y = true.

Lemma insert_sorted_sorted (x : A) (l : list A) :
  Sorted ordered l -> Sorted ordered (insert_sorted leb x l).
Proof.
  induction l as [|y t IH]; intros sorted_l; simpl.
  - repeat constructor.
  - destruct (leb x y) eqn:cmp.
    + constructor; [assumption|]. now constructor.
    + inversion sorted_l as [|? ? sorted_t hd]; subst.
      constructor; [now apply IH|].
      destruct t as [|z t']; simpl.
      * constructor. now apply leb_total.
      * destruct (leb x z); constructor.
        -- now apply leb_total.
        -- now inversion hd.
Qed.

Lemma stable_sort_sorted (l : list A) :
  StronglySorted ordered (stable_sort leb l).
Proof.
  apply Sorted_StronglySorted.
  - intros x y z. apply leb_trans.
  - induction l as [|x t IH]; simpl; [constructor|].
    now apply insert_sorted_sorted.
Qed.
End StableSortFacts.

Lemma StronglySorted_firstn {A : Type} (R : A -> A -> Prop) (n : nat)
    (l : list A) :
  StronglySorted R l -> StronglySorted R (firstn n l).
Proof.
  revert n. induction l as [|x t IH]; intros [|n] sorted_l; simpl;
    try constructor.
  - apply IH. now inversion sorted_l.
  - inversion sorted_l as [|? ? _ all]; subst.
    rewrite Forall_forall in *. intros y iny. apply all.
    rewrite <- (firstn_skipn n t). apply in_or_app. now left.
Qed.

Lemma StronglySorted_map {A B : Type} (R : B -> B -> Prop) (f : A -> B)
    (l : list A) :
  StronglySorted (fun a b => R (f a) (f b)) l -> StronglySorted R (map f l).
Proof.
  induction 1 as [|x t _ IH all]; simpl; constructor; [assumption|].
  rewrite Forall_forall in *. intros y iny.
  apply in_map_iff in iny as (a & <- & ina). now apply all.
Qed.

(** Elements of a sorted list that follow a prefix are dominated by it. *)
Lemma StronglySorted_split {A : Type} (R : A -> A -> Prop) (n : nat)
    (l : list A) :
  StronglySorted R l ->
  forall x y, In x (firstn n l) -> In y (skipn n l) -> R x y.
Proof.
  revert n. induction l as [|a t IH]; intros [|n] sorted_l x y inx iny;
    simpl in *; try contradiction.
  inversion sorted_l as [|? ? sorted_t all]; subst.
  destruct inx as [<-|inx].
  - rewrite Forall_forall in all. apply all.
    rewrite <- (firstn_skipn n t). apply in_or_app. now right.
  - eapply IH; eauto.
Qed.

Lemma filter_firstn_prefix {A : Type} (P : A -> bool) (n : nat) (l : list A) :
  exists k, filter P (firstn n l) = firstn k (filter P l).
Proof.
  revert n. induction l as [|x t IH]; intros [|n]; simpl.
  - now exists 0%nat.
  - now exists 0%nat.
  - now exists 0%nat.
  - destruct (IH n) as [k eq]. destruct (P x).
    + exists (S k). simpl. now rewrite eq.
    + now exists k.
Qed.

(** ** [nlargest] and [nsmallest] *)

Lemma Qle_bool_total (x y : Q) : Qle_bool x y = false -> Qle_bool y x = true.
Proof.
  intros no. apply Qle_bool_iff. apply Qlt_le_weak, Qnot_le_lt.
  intros le. apply Qle_bool_iff in le. congruence.
Qed.

Lemma Qle_bool_trans (x y z : Q) :
  Qle_bool x y = true -> Qle_bool y z = true -> Qle_bool x z = true.
Proof. rewrite !Qle_bool_iff. apply Qle_trans. Qed.

Lemma StronglySorted_weaken {A : Type} (R S : A -> A -> Prop) (l : list A) :
  (forall a b, R a b -> S a b) -> StronglySorted R l -> StronglySorted S l.
Proof.
  intros sub. induction 1 as [|x t _ IH all]; constructor; [assumption|].
  eapply Forall_impl; [|exact all]. intros b. apply sub.
Qed.

Section SelectN.
Context {A : Type} (key : A -> Q).

Let desc (a b : A) : bool := Qle_bool (key b) (key a).
Let asc (a b : A) : bool := Qle_bool (key a) (key b).
Let tied (p : Q) (r : A) : bool := Qeq_bool (key r) p.

Lemma nlargest_sorted (n : nat) (df : list A) :
  StronglySorted (fun a b => (key b <= key a)%Q) (nlargest n key df).
Proof.
  apply StronglySorted_firstn.
  eapply StronglySorted_weaken;
    [|apply (stable_sort_sorted desc)].
  - intros a b le. now apply Qle_bool_iff.
  - intros x y. apply Qle_bool_total.
  - intros x y z xy yz. exact (Qle_bool_trans _ _ _ yz xy).
Qed.

Lemma nsmallest_sorted (n : nat) (df : list A) :
  StronglySorted (fun a b => (key a <= key b)%Q) (nsmallest n key df).
Proof.
  apply StronglySorted_firstn.
  eapply StronglySorted_weaken;
    [|apply (stable_sort_sorted asc)].
  - intros a b le. now apply Qle_bool_iff.
  - intros x y. apply Qle_bool_total.
  - intros x y z. apply Qle_bool_trans.
Qed.

Lemma nlargest_length (n : nat) (df : list A) :
  List.length (nlargest n key df) = Nat.min n (List.length df).
Proof.
  unfold nlargest. now rewrite length_firstn, stable_sort_length.
Qed.

Lemma nsmallest_length (n : nat) (df : list A) :
  List.length (nsmallest n key df) = Nat.min n (List.length df).
Proof.
  unfold nsmallest. now rewrite length_firstn, stable_sort_length.
Qed.

Lemma tied_le (p : Q) (x y : A) :
  tied p x = true -> tied p y = true -> (key x <= key y)%Q.
Proof.
  unfold tied. intros ex ey. apply Qeq_bool_iff in ex, ey.
  rewrite ex, ey. apply Qle_refl.
Qed.

(** Among the rows of one key value the selection takes a prefix of the
    frame's own order. *)
Lemma nlargest_stable (n : nat) (df : list A) (p : Q) :
  exists k, filter (tied p) (nlargest n key df) = firstn k (filter (tied p) df).
Proof.
  destruct (filter_firstn_prefix (tied p) n (stable_sort desc df)) as [k eq].
  exists k. unfold nlargest. fold desc. rewrite eq.
  rewrite stable_sort_filter; [reflexivity|].
  intros x y px py. apply Qle_bool_iff. eapply tied_le; eauto.
Qed.

Lemma nsmallest_stable (n : nat) (df : list A) (p : Q) :
  exists k, filter (tied p) (nsmallest n key df) = firstn k (filter (tied p) df).
Proof.
  destruct (filter_firstn_prefix (tied p) n (stable_sort asc df)) as [k eq].
  exists k. unfold nsmallest. fold asc. rewrite eq.
  rewrite stable_sort_filter; [reflexivity|].
  intros x y px py. apply Qle_bool_iff. eapply tied_le; eauto.
Qed.

(** What is selected dominates what is left out. *)
Lemma nlargest_selects (n : nat) (df : list A) :
  exists rest,
    Permutation df (nlargest n key df ++ rest)
    /\ forall r u, In r (nlargest n key df) -> In u rest ->
                   (key u <= key r)%Q.
Proof.
  exists (skipn n (stable_sort desc df)). split.
  - unfold nlargest. fold desc. rewrite firstn_skipn.
    apply stable_sort_perm.
  - intros r u inr inu.
    apply Qle_bool_iff.
    refine (StronglySorted_split (fun a b => desc a b = true) n _ _ r u inr inu).
    apply stable_sort_sorted.
    + intros x y. apply Qle_bool_total.
    + intros x y z xy yz. exact (Qle_bool_trans _ _ _ yz xy).
Qed.

Lemma nsmallest_selects (n : nat) (df : list A) :
  exists rest,
    Permutation df (nsmallest n key df ++ rest)
    /\ forall r u, In r (nsmallest n key df) -> In u rest ->
                   (key r <= key u)%Q.
Proof.
  exists (skipn n (stable_sort asc df)). split.
  - unfold nsmallest. fold asc. rewrite firstn_skipn.
    apply stable_sort_perm.
  - intros r u inr inu.
    apply Qle_bool_iff.
    refine (StronglySorted_split (fun a b => asc a b = true) n _ _ r u inr inu).
    apply stable_sort_sorted.
    + intros x y. apply Qle_bool_total.
    + intros x y z. apply Qle_bool_trans.
Qed.
End SelectN.

Lemma filter_select_columns (p : Q) (l : list Row) :
  filter (fun t => Qeq_bool (shown_profit t) p) (map select_columns l)
  = map select_columns (filter (fun r => Qeq_bool (profit r) p) l).
Proof.
  induction l as [|r t IH]; [reflexivity|].
  simpl. unfold shown_profit at 1. simpl.
  destruct (Qeq_bool (profit r) p); simpl; now rewrite IH.
Qed.

(** C6: the five most profitable transactions come in non-increasing profit
    order and the five least profitable in non-decreasing order; each table
    has min(5, |D|) rows; and among transactions of equal profit the tables
    take them in the order of the dataset (for each profit value, the rows
    of a table with that profit are a prefix of the dataset's rows with that
    profit). *)
Theorem top_trans_ordered_stable (D : DataFrame) :
  StronglySorted (fun a b => (shown_profit b <= shown_profit a)%Q)
                 (top_trans D)
  /\ StronglySorted (fun a b => (shown_profit a <= shown_profit b)%Q)
                    (bottom_trans D)
  /\ List.length (top_trans D) = Nat.min 5 (List.length D)
  /\ List.length (bottom_trans D) = Nat.min 5 (List.length D)
  /\ (forall p, exists k,
        filter (fun t => Qeq_bool (shown_profit t) p) (top_trans D)
        = firstn k (map select_columns
                        (filter (fun r => Qeq_bool (profit r) p) D)))
  /\ (forall p, exists k,
        filter (fun t => Qeq_bool (shown_profit t) p) (bottom_trans D)
        = firstn k (map select_columns
                        (filter (fun r => Qeq_bool (profit r) p) D))).
Proof.
  unfold top_trans, bottom_trans. repeat split.
  - apply StronglySorted_map. apply (nlargest_sorted profit).
  - apply StronglySorted_map. apply (nsmallest_sorted profit).
  - rewrite length_map. apply nlargest_length.
  - rewrite length_map. apply nsmallest_length.
  - intros p. destruct (nlargest_stable profit 5 D p) as [k eq].
    exists k. rewrite filter_select_columns, eq. symmetry. apply firstn_map.
  - intros p. destruct (nsmallest_stable profit 5 D p) as [k eq].
    exists k. rewrite filter_select_columns, eq. symmetry. apply firstn_map.
Qed.

(** ** Membership and distinct values *)

Section UniqueFacts.
Context {K : Type} (eqb : K -> K -> bool).
Hypothesis eqb_eq : forall a b, eqb a b = true <-> a = b.

Lemma isin_In (x : K) (l : list K) : Series.isin eqb x l = true <-> In x l.
Proof.
  unfold Series.isin. rewrite existsb_exists. split.
  - intros (y & iny & e). apply eqb_eq in e. now subst.
  - intros inx. exists x. split; [assumption|]. now apply eqb_eq.
Qed.

Lemma isin_false (x : K) (l : list K) :
  Series.isin eqb x l = false <-> ~ In x l.
Proof.
  rewrite <- isin_In. destruct (Series.isin eqb x l); split; congruence.
Qed.

Lemma unique_acc_In (x : K) (s seen : list K) :
  In x (Series.unique_acc eqb seen s) <-> In x s /\ ~ In x seen.
Proof.
  revert seen. induction s as [|y t IH]; intros seen; simpl.
  - tauto.
  - destruct (Series.isin eqb y seen) eqn:known.
    + apply isin_In in known. rewrite IH. split.
      * tauto.
      * intros [[<-|inx] fresh]; [contradiction|tauto].
    + apply isin_false in known. simpl. rewrite IH. simpl. split.
      * intros [<-|[inx fresh]]; [tauto|]. split; [tauto|]. tauto.
      * intros [[<-|inx] fresh]; [tauto|].
        destruct (Series.isin eqb x [y]) eqn:same.
        -- apply isin_In in same. simpl in same. tauto.
        -- apply isin_false in same. simpl in same. right. tauto.
Qed.

Lemma unique_In (x : K) (s : list K) :
  In x (Series.unique eqb s) <-> In x s.
Proof. unfold Series.unique. rewrite unique_acc_In. simpl. tauto. Qed.

Lemma unique_acc_NoDup (s seen : list K) :
  NoDup (Series.unique_acc eqb seen s).
Proof.
  revert seen. induction s as [|y t IH]; intros seen; simpl.
  - constructor.
  - destruct (Series.isin eqb y seen); [apply IH|].
    constructor; [|apply IH].
    rewrite unique_acc_In. simpl. tauto.
Qed.

Lemma unique_NoDup (s : list K) : NoDup (Series.unique eqb s).
Proof. apply unique_acc_NoDup. Qed.

Lemma unique_nil (s : list K) : Series.unique eqb s = [] <-> s = [].
Proof.
  split; [|now intros ->].
  destruct s as [|x t]; [reflexivity|]. discriminate.
Qed.
End UniqueFacts.

Lemma zmin_le (d x : Z) (s : list Z) : In x s -> Series.zmin d s <= x.
Proof.
  induction s as [|y t IH]; simpl; [contradiction|].
  intros [<-|inx]; [lia|]. specialize (IH inx). lia.
Qed.

Lemma zmax_ge (d x : Z) (s : list Z) : In x s -> x <= Series.zmax d s.
Proof.
  induction s as [|y t IH]; simpl; [contradiction|].
  intros [<-|inx]; [lia|]. specialize (IH inx). lia.
Qed.

(** ** The filter *)

Lemma retainedb_spec (c : Criteria) (r : Row) :
  retainedb c r = true <-> retained c r.
Proof.
  unfold retainedb, retained.
  rewrite !andb_true_iff, !Z.leb_le,
    !(isin_In String.eqb String.eqb_eq).
  tauto.
Qed.

Lemma filtered_data_filter (D : DataFrame) (c : Criteria) :
  filtered_data D c = filter (retainedb c) D.
Proof.
  unfold filtered_data, col.
  induction D as [|r t IH]; [reflexivity|].
  cbn [map mask_and]. unfold retainedb at 1. cbn [filter].
  destruct (((date_from c <=? sale_date r) && (sale_date r <=? date_to c)
             && Series.isin String.eqb (category r) (selected_categories c)
             && Series.isin String.eqb (gender r) (selected_genders c))%bool);
    cbn [boolean_index]; now rewrite IH.
Qed.

Lemma filter_all {A : Type} (P : A -> bool) (l : list A) :
  (forall x, In x l -> P x = true) -> filter P l = l.
Proof.
  induction l as [|x t IH]; intros all; [reflexivity|].
  simpl. rewrite (all x (or_introl eq_refl)). f_equal.
  apply IH. intros y iny. apply all. now right.
Qed.

Lemma default_criteria_covers (D : DataFrame) (c : Criteria) :
  default_criteria D = Some c -> covers c D.
Proof.
  unfold default_criteria. intros def.
  destruct (col sale_date D) as [|d s] eqn:dates; [discriminate|].
  injection def as <-. intros r inr. unfold retained. cbn.
  assert (indate : In (sale_date r) (d :: s)).
  { rewrite <- dates. now apply in_map. }
  repeat split.
  - exact (zmin_le d _ (d :: s) indate).
  - exact (zmax_ge d _ (d :: s) indate).
  - apply (unique_In String.eqb String.eqb_eq). now apply in_map.
  - apply (unique_In String.eqb String.eqb_eq). now apply in_map.
Qed.

(** C3: the filter keeps exactly the rows whose date lies in
    [date_from, date_to] and whose category and gender are among the
    selected ones, in the order of the frame (it is the order-preserving
    selection [filter] of that rule from D, a new frame; D itself is not
    changed); with criteria that every row of D meets, and so with the
    widgets' defaults, the filtered frame is D. *)
Theorem filter_keeps_exactly (D : DataFrame) (c : Criteria) :
  filtered_data D c = filter (retainedb c) D
  /\ (forall r, In r (filtered_data D c) <-> In r D /\ retained c r)
  /\ (covers c D -> filtered_data D c = D)
  /\ (forall c0, default_criteria D = Some c0 -> filtered_data D c0 = D).
Proof.
  assert (identity : forall c', covers c' D -> filtered_data D c' = D).
  { intros c' full. rewrite filtered_data_filter. apply filter_all.
    intros r inr. apply retainedb_spec. now apply full. }
  split; [apply filtered_data_filter|].
  split; [|split].
  - intros r. rewrite filtered_data_filter, filter_In, retainedb_spec.
    reflexivity.
  - apply identity.
  - intros c0 def. apply identity. now apply default_criteria_covers.
Qed.

(** The two sample transactions pass the filter that selects their two
    days, both categories and both genders. *)
Lemma filter_keeps_exactly_witness :
  covers everything two_sales /\ filtered_data two_sales everything = two_sales.
Proof.
  assert (full : covers everything two_sales).
  { intros r [<-|[<-|[]]]; unfold retained; simpl; repeat split;
      (lia || tauto). }
  split; [exact full|].
  destruct (filter_keeps_exactly two_sales everything) as (_ & _ & identity & _).
  exact (identity full).
Defined.


(** ** Grouped sums *)

Lemma group_keys_In (k : string) (ks : list string) :
  In k (group_keys ks) <-> In k ks.
Proof.
  unfold group_keys.
  now rewrite stable_sort_In, (unique_In String.eqb String.eqb_eq).
Qed.

Lemma group_keys_NoDup (ks : list string) : NoDup (group_keys ks).
Proof.
  unfold group_keys.
  eapply Permutation_NoDup; [apply stable_sort_perm|].
  apply (unique_NoDup String.eqb String.eqb_eq).
Qed.

Lemma group_keys_nil (ks : list string) : group_keys ks = [] <-> ks = [].
Proof.
  unfold group_keys. split.
  - intros none. apply (unique_nil String.eqb).
    apply length_zero_iff_nil.
    rewrite <- (stable_sort_length String.leb), none. reflexivity.
  - now intros ->.
Qed.



Section GroupBy.
Variables (key : Row -> string) (val : Row -> Q).

Lemma rows_of_nil (k : string) (df : DataFrame) :
  rows_of key k df = [] <-> ~ In k (col key df).
Proof.
  unfold rows_of, col. induction df as [|r t IH]; simpl; [tauto|].
  destruct (String.eqb (key r) k) eqn:same.
  - apply String.eqb_eq in same. split; [discriminate|]. tauto.
  - apply String.eqb_neq in same. rewrite IH. tauto.
Qed.

Lemma groupby_sum_nil (df : DataFrame) :
  groupby_sum key val df = [] <-> df = [].
Proof.
  unfold groupby_sum. split.
  - intros none. apply map_eq_nil in none.
    apply (proj1 (group_keys_nil _)) in none.
    now apply map_eq_nil in none.
  - now intros ->.
Qed.

Lemma lookup_keyed (f : string -> Q) (k : string) (ks : list string) :
  lookup k (map (fun k' => (k', f k')) ks)
  = if Series.isin String.eqb k ks then Some (f k) else None.
Proof.
  induction ks as [|k' t IH]; [reflexivity|].
  simpl. destruct (String.eqb k k') eqn:same.
  - apply String.eqb_eq in same. now subst.
  - exact IH.
Qed.

(** Looking a label up in the grouped sums: absent exactly when no row
    has it, and with the sum over its rows otherwise. *)
Lemma lookup_groupby_sum (k : string) (df : DataFrame) :
  lookup k (groupby_sum key val df)
  = if empty (rows_of key k df) then None
    else Some (Series.sum (col val (rows_of key k df))).
Proof.
  unfold groupby_sum. rewrite lookup_keyed.
  destruct (Series.isin String.eqb k (group_keys (col key df))) eqn:known.
  - apply (isin_In String.eqb String.eqb_eq) in known.
    apply (proj1 (group_keys_In _ _)) in known.
    destruct (rows_of key k df) eqn:rows; [|reflexivity].
    apply (proj1 (rows_of_nil _ _)) in rows. contradiction.
  - apply (isin_false String.eqb String.eqb_eq) in known.
    rewrite group_keys_In in known.
    apply (proj2 (rows_of_nil _ _)) in known.
    now rewrite known.
Qed.
End GroupBy.

Lemma idxmax_total (g : Grouped) : g <> [] -> exists k, idxmax g = Ret k.
Proof.
  destruct g as [|kv t]; [congruence|]. intros _. simpl. eauto.
Qed.

(** ** KPIs *)

Lemma calculate_kpis_some (r : Row) (D : DataFrame) :
  exists k, calculate_kpis (Some (r :: D)) = Some k
            /\ total_revenue k = Series.sum (col total_sale (r :: D))
            /\ unique_customers k
               = Series.nunique Z.eqb (col customer_id (r :: D)).
Proof. simpl. eexists. split; [reflexivity|]. split; reflexivity. Qed.

(** A KpiSet that is returned counts at least one customer, so the divisor
    of [avg_revenue_per_customer] is never 0. *)
Lemma calculate_kpis_customers (df : option DataFrame) (k : Kpis) :
  calculate_kpis df = Some k -> (0 < unique_customers k)%nat.
Proof.
  destruct df as [[|r D]|]; simpl; try discriminate.
  intros [= <-]. simpl. unfold Series.nunique, Series.unique. simpl. lia.
Qed.

(** C1, as the code has it: on the empty dataset, and on None,
    [calculate_kpis] returns None without raising; it builds a KpiSet
    exactly for the non-empty datasets. *)
Theorem calculate_kpis_empty_is_none :
  calculate_kpis (Some []) = None
  /\ calculate_kpis None = None
  /\ forall D, (exists k, calculate_kpis (Some D) = Some k) <-> D <> [].
Proof.
  repeat split.
  - intros [k some] ->. discriminate.
  - destruct D as [|r D]; [congruence|]. intros _.
    destruct (calculate_kpis_some r D) as (k & some & _). eauto.
Qed.

(** C1 as stated fails: no KpiSet, with zero fields or otherwise, comes back
    for the empty dataset. *)
Lemma calculate_kpis_empty_no_kpiset :
  ~ exists k, calculate_kpis (Some []) = Some k
              /\ (total_revenue k == 0)%Q /\ unique_customers k = 0%nat.
Proof. intros (k & some & _). discriminate. Qed.

(** ** Revenue by category *)


Section Partition.
Context {A : Type} (key : A -> string).



End Partition.



(** ** Sales by day of week *)

(** C5: whatever the dataset and its order, the weekday aggregate lists the
    seven days Monday to Sunday in that order; a day without transactions
    is listed with a missing value (nan), a day with transactions with the
    sum of their [total_sale]. *)
Theorem weekday_sales_seven_days (D : DataFrame) :
  map fst (weekday_sales D)
  = ["Monday"; "Tuesday"; "Wednesday"; "Thursday"; "Friday"; "Saturday";
     "Sunday"]%string
  /\ List.length (weekday_sales D) = 7%nat
  /\ weekday_sales D
     = map (fun d =>
              (d, if empty (rows_of week_day d D) then NaN
                  else Fin (Series.sum (col total_sale (rows_of week_day d D)))))
           Calendar.day_names
  /\ forall D', map fst (weekday_sales D') = map fst (weekday_sales D).
Proof.
  assert (keys : forall df, map fst (weekday_sales df) = Calendar.day_names).
  { intros df. unfold weekday_sales, reindex. rewrite map_map. simpl.
    reflexivity. }
  split; [apply keys|]. split; [|split].
  - rewrite <- (length_map fst), keys. reflexivity.
  - unfold weekday_sales, reindex. apply map_ext. intros d.
    rewrite lookup_groupby_sum.
    now destruct (empty (rows_of week_day d D)).
  - intros D'. now rewrite !keys.
Qed.

(** ** Ratio guards *)

(** C4, at [calculate_kpis]: a dataset whose revenue is 0 gets a
    [profit_margin] that is nan, not 0. *)
Theorem calculate_kpis_margin_unguarded :
  exists k, calculate_kpis (Some zero_sale) = Some k
            /\ (total_revenue k == 0)%Q
            /\ kpi_profit_margin k = NaN.
Proof.
  eexists. split; [reflexivity|]. split; reflexivity.
Qed.

(** The page's own KPIs do carry the guards: a zero revenue gives a margin
    of 0 and a zero customer count a revenue per customer of 0. *)
Lemma snapshot_ratios_guarded (D : DataFrame) (s : Snapshot.t) :
  Snapshot.compute D = Ret s ->
  ((Snapshot.total_revenue s == 0)%Q ->
   Snapshot.gross_profit_margin s = Fin 0)
  /\ (Snapshot.unique_customers s = 0%nat ->
      Snapshot.avg_revenue_per_customer s = Fin 0).
Proof.
  unfold Snapshot.compute.
  destruct (if negb (empty D)
            then k <- idxmax (groupby_sum category total_sale D) ;; Ret (Some k)
            else Ret None) as [top|e]; simpl; [|discriminate].
  intros [= <-]. simpl. split.
  - intros zero. apply Qeq_bool_iff in zero. unfold Qis_zero.
    now rewrite zero.
  - now intros ->.
Qed.

Lemma snapshot_zero_sale :
  exists s, Snapshot.compute zero_sale = Ret s
            /\ Snapshot.gross_profit_margin s = Fin 0.
Proof. eexists. split; reflexivity. Qed.

(** ** Age groups *)

Lemma cut_age (a : Z) :
  cut a age_bins age_labels
  = if (0 <? a) && (a <=? 25) then Some "18-25"%string
    else if (25 <? a) && (a <=? 35) then Some "26-35"%string
    else if (35 <? a) && (a <=? 45) then Some "36-45"%string
    else if (45 <? a) && (a <=? 55) then Some "46-55"%string
    else if (55 <? a) && (a <=? 100) then Some "55+"%string
    else None.
Proof. reflexivity. Qed.

Ltac split_age a :=
  rewrite ?cut_age;
  destruct (Z.ltb_spec 0 a), (Z.leb_spec a 25), (Z.ltb_spec 25 a),
    (Z.leb_spec a 35), (Z.ltb_spec 35 a), (Z.leb_spec a 45),
    (Z.ltb_spec 45 a), (Z.leb_spec a 55), (Z.ltb_spec 55 a),
    (Z.leb_spec a 100); cbn [andb]; try lia.

Lemma cut_age_none (a : Z) :
  cut a age_bins age_labels = None <-> a <= 0 \/ 100 < a.
Proof. split_age a; split; (discriminate || lia || tauto). Qed.

Lemma cut_age_some (a : Z) (l : string) :
  cut a age_bins age_labels = Some l
  <-> (0 < a <= 25 /\ l = "18-25"%string)
      \/ (25 < a <= 35 /\ l = "26-35"%string)
      \/ (35 < a <= 45 /\ l = "36-45"%string)
      \/ (45 < a <= 55 /\ l = "46-55"%string)
      \/ (55 < a <= 100 /\ l = "55+"%string).
Proof.
  split_age a; (split; [intros [= <-]; tauto | ]);
    intros [[? ->]|[[? ->]|[[? ->]|[[? ->]|[? ->]]]]]; (reflexivity || lia).
Qed.

Lemma bucket_rows (val : Row -> Q) (l : string) (D : DataFrame) :
  map (fun rg : Row * option string => val (fst rg))
      (filter (fun rg => match snd rg with
                         | Some g => String.eqb g l
                         | None => false
                         end)
              (with_age_group D))
  = col val (filter (in_bucket l) D).
Proof.
  unfold with_age_group, col, in_bucket.
  induction D as [|r t IH]; [reflexivity|].
  cbn [map filter fst snd].
  destruct (cut (age r) age_bins age_labels) as [g|]; [|exact IH].
  destruct (String.eqb g l); cbn [map fst]; now rewrite IH.
Qed.

Lemma age_sales_buckets (D : DataFrame) :
  age_sales D
  = map (fun l => (l, Fin (Series.sum (col total_sale (filter (in_bucket l) D)))))
        age_labels.
Proof.
  unfold age_sales, groupby_categorical_sum, reindex.
  apply map_ext_in. intros l inl.
  rewrite (lookup_keyed
             (fun l => Series.sum
                (map (fun rg : Row * option string => total_sale (fst rg))
                     (filter (fun rg => match snd rg with
                                        | Some g => String.eqb g l
                                        | None => false
                                        end) (with_age_group D))))).
  apply (isin_In String.eqb String.eqb_eq) in inl. rewrite inl.
  now rewrite bucket_rows.
Qed.





Lemma has_rows_bucket (l : string) (D : DataFrame) :
  has_rows l (with_age_group D) = negb (empty (filter (in_bucket l) D)).
Proof.
  unfold has_rows, with_age_group, in_bucket.
  induction D as [|r t IH]; [reflexivity|].
  cbn [map existsb filter fst snd].
  destruct (cut (age r) age_bins age_labels) as [g|]; cbn [orb]; [|exact IH].
  destruct (String.eqb g l); [reflexivity|exact IH].
Qed.

Lemma age_sales_observed_buckets (D : DataFrame) :
  age_sales_observed D
  = map (fun l =>
           (l, if empty (filter (in_bucket l) D) then NaN
               else Fin (Series.sum (col total_sale (filter (in_bucket l) D)))))
        age_labels.
Proof.
  unfold age_sales_observed, groupby_observed_sum, groupby_categorical_sum,
    reindex.
  apply map_ext_in. intros l inl.
  rewrite (lookup_keyed
             (fun l => Series.sum
                (map (fun rg : Row * option string => total_sale (fst rg))
                     (filter (fun rg => match snd rg with
                                        | Some g => String.eqb g l
                                        | None => false
                                        end) (with_age_group D))))).
  rewrite bucket_rows.
  destruct (Series.isin String.eqb l
              (filter (fun l => has_rows l (with_age_group D)) age_labels))
    eqn:observed.
  - apply (isin_In String.eqb String.eqb_eq) in observed.
    apply filter_In in observed as [_ rows].
    rewrite has_rows_bucket in rows.
    now destruct (empty (filter (in_bucket l) D)).
  - destruct (empty (filter (in_bucket l) D)) eqn:none; [reflexivity|].
    assert (listed : In l (filter (fun l => has_rows l (with_age_group D))
                                  age_labels)).
    { apply filter_In. split; [exact inl|].
      rewrite has_rows_bucket. now rewrite none. }
    apply (isin_In String.eqb String.eqb_eq) in listed. congruence.
Qed.

(** C8, as the code has it: the age groups are the right-closed bins
    (0,25], (25,35], (35,45], (45,55], (55,100] labelled "18-25", "26-35",
    "36-45", "46-55", "55+"; an age has a bucket exactly when it lies in
    1..100, and the ages 1..17 fall into "18-25".  The aggregate lists the
    five labels in order; a bucket with rows carries the sum of
    [total_sale] over its rows, and a bucket without rows carries 0 where
    pandas groups with [observed=False] and nan where it groups with
    [observed=True]. *)
Theorem age_buckets_cover_1_to_100 :
  (forall a l,
      cut a age_bins age_labels = Some l
      <-> (0 < a <= 25 /\ l = "18-25"%string)
          \/ (25 < a <= 35 /\ l = "26-35"%string)
          \/ (35 < a <= 45 /\ l = "36-45"%string)
          \/ (45 < a <= 55 /\ l = "46-55"%string)
          \/ (55 < a <= 100 /\ l = "55+"%string))
  /\ (forall a, (exists l, cut a age_bins age_labels = Some l) <-> 0 < a <= 100)
  /\ (forall a, 0 < a < 18 -> cut a age_bins age_labels = Some "18-25"%string)
  /\ (forall pd D,
        map fst (age_sales_by pd D)
        = ["18-25"; "26-35"; "36-45"; "46-55"; "55+"]%string)
  /\ (forall pd D l v,
        In (l, v) (age_sales_by pd D) ->
        v = if empty (filter (in_bucket l) D)
            then (if observed pd then NaN else Fin 0)
            else Fin (Series.sum (col total_sale (filter (in_bucket l) D))))
  /\ (forall pd D l,
        In l age_labels -> filter (in_bucket l) D = [] ->
        In (l, if observed pd then NaN else Fin 0) (age_sales_by pd D)).
Proof.
  assert (table : forall pd D,
    age_sales_by pd D
    = map (fun l =>
             (l, if empty (filter (in_bucket l) D)
                 then (if observed pd then NaN else Fin 0)
                 else Fin (Series.sum
                             (col total_sale (filter (in_bucket l) D)))))
          age_labels).
  { intros pd D. unfold age_sales_by. destruct (observed pd).
    - apply age_sales_observed_buckets.
    - rewrite age_sales_buckets. apply map_ext. intros l.
      now destruct (filter (in_bucket l) D). }
  split; [exact cut_age_some|]. split; [|split; [|split; [|split]]].
  - intros a. split.
    + intros [l some]. apply cut_age_some in some. lia.
    + intros range. destruct (cut a age_bins age_labels) as [l|] eqn:bucket.
      * now exists l.
      * apply cut_age_none in bucket. lia.
  - intros a young. apply cut_age_some. left. split; [lia|reflexivity].
  - intros pd D. rewrite table, map_map. cbn [fst]. now rewrite map_id.
  - intros pd D l v. rewrite table, in_map_iff.
    now intros (l' & [= -> <-] & _).
  - intros pd D l inl none. rewrite table.
    apply in_map_iff. exists l. split; [|assumption].
    now rewrite none.
Qed.

Lemma age_buckets_cover_1_to_100_witness :
  cut 17 age_bins age_labels = Some "18-25"%string
  /\ In ("55+"%string, Fin 0) (age_sales_by pandas2 two_sales)
  /\ In ("55+"%string, NaN) (age_sales_by pandas3 two_sales).
Proof.
  destruct age_buckets_cover_1_to_100 as (_ & _ & young & _ & _ & unobserved).
  split; [apply young; lia|]. split.
  - apply (unobserved pandas2); [simpl; tauto | reflexivity].
  - apply (unobserved pandas3); [simpl; tauto | reflexivity].
Defined.

(** C8 as stated fails: the age 0 is non-negative and below 18, and the
    age 101 is beyond 56, yet neither has a bucket. *)
Lemma age_zero_has_no_bucket :
  ~ (forall a, 0 <= a -> exists l, cut a age_bins age_labels = Some l).
Proof.
  intros every. destruct (every 0 (Z.le_refl 0)) as [l some]. discriminate.
Qed.


(** ** Insights *)

Lemma Qltb_true (a b : Q) : Qltb a b = true <-> (a < b)%Q.
Proof.
  unfold Qltb. rewrite negb_true_iff. split.
  - intros no. apply Qnot_le_lt. intros le.
    apply Qle_bool_iff in le. congruence.
  - intros lt. destruct (Qle_bool b a) eqn:le; [|reflexivity].
    apply Qle_bool_iff in le. exfalso. exact (Qlt_not_le _ _ lt le).
Qed.

Lemma Qltb_false (a b : Q) : Qltb a b = false <-> (b <= a)%Q.
Proof.
  unfold Qltb. rewrite negb_false_iff. apply Qle_bool_iff.
Qed.

Lemma generate_auto_insights_lines (r : Row) (D : DataFrame) :
  exists top_cat best_day,
    idxmax (groupby_sum category total_sale (r :: D)) = Ret top_cat
    /\ idxmax (groupby_sum week_day total_sale (r :: D)) = Ret best_day
    /\ generate_auto_insights (r :: D)
       = Ret ([revenue_line (Series.sum (col total_sale (r :: D)));
               category_line top_cat
                 (smax (groupby_sum category total_sale (r :: D)));
               weekday_line best_day;
               margin_line (Series.fmean (col profit_margin (r :: D)))]
              ++ fifth_line (Series.fmean (col profit_margin (r :: D)))).
Proof.
  destruct (idxmax_total (groupby_sum category total_sale (r :: D)))
    as [top_cat top].
  { intros none. apply groupby_sum_nil in none. discriminate. }
  destruct (idxmax_total (groupby_sum week_day total_sale (r :: D)))
    as [best_day best].
  { intros none. apply groupby_sum_nil in none. discriminate. }
  exists top_cat, best_day. split; [assumption|]. split; [assumption|].
  unfold generate_auto_insights. cbn [empty].
  rewrite top, best. cbn [bind app]. unfold fifth_line.
  destruct (flt _ 20); [reflexivity|]. destruct (fgt _ 40); reflexivity.
Qed.

(** ** Insights in float64 *)




(** The two-decimal text is that of the float, not of the exact quotient:
    a sale of 4000 at cost 3893 has the exact margin 2.675 and the float
    margin just below it. *)
Example insights_margin_rounding :
  Binary64.generate_auto_insights Binary64.sequential
    [Binary64.preprocess 1 19723 7 "Male" 34 "Clothing" 4000 3893]
  = Ret ["Total revenue in this selection is **$4,000.00**.";
         "**Clothing** is the top category with $4,000.00 in sales.";
         "**Monday** has the highest sales in this period.";
         "Average profit margin is **2.67%**.";
         "Profit margins are relatively low — review pricing or costs."]%string.
Proof. vm_compute. reflexivity. Qed.

(** ** Loading *)

Lemma load_retail_data_outcome (pd : Pandas) (src : source) :
  load_retail_data pd src
  = match load_body pd src with
    | Ret df =>
        (Some df,
         [Success ("Data loaded: " ++ Format.count (List.length df)
                   ++ " records")%string])
    | Raise e => (None, [Error ("Database Connection Failed: " ++ e)%string])
    end.
Proof.
  unfold load_retail_data. now destruct (load_body pd src).
Qed.

Lemma mapM_to_datetime_bad (pd : Pandas) (cells : list raw_date) :
  existsb (is_bad_date pd) cells = true ->
  exists e, mapM (to_datetime pd) cells = Raise e.
Proof.
  induction cells as [|[day|text] t IH]; cbn [existsb is_bad_date mapM];
    [discriminate| |].
  - cbn [to_datetime]. destruct (representable pd day); cbn [negb orb bind].
    + intros bad. destruct (IH bad) as [e ->]. now exists e.
    + eauto.
  - cbn [to_datetime bind]. eauto.
Qed.

(** The [try] block raises on an unavailable source and on a malformed
    table. *)
Lemma load_body_raises (pd : Pandas) (src : source) :
  fails pd src = true -> exists e, load_body pd src = Raise e.
Proof.
  destruct src as [err|t]; cbn [fails]; [now exists err|].
  unfold load_body, malformed, getitem. cbn [read_sql bind].
  destruct (Series.isin String.eqb "sale_date"%string (raw_columns t));
    cbn [negb orb bind]; [|eauto].
  destruct (existsb (is_bad_date pd) (map raw_sale_date (raw_rows t)))
    eqn:dates; cbn [orb].
  - destruct (mapM_to_datetime_bad pd _ dates) as [e ->]. cbn [bind]. eauto.
  - destruct (mapM (to_datetime pd) (map raw_sale_date (raw_rows t)));
      cbn [bind]; [|eauto].
    destruct (Series.isin String.eqb "total_sale"%string (raw_columns t));
      cbn [negb orb bind]; [|eauto].
    destruct (Series.isin String.eqb "cogs"%string (raw_columns t));
      cbn [negb bind]; [discriminate|eauto].
Qed.

(** C9: [load_retail_data] never raises.  Whatever is raised inside its
    [try] block becomes the result None with a "Database Connection
    Failed" message; that is the case for an unavailable source and for a
    table that lacks a column the preprocessing reads or has a
    [sale_date] that cannot be converted, so that at the interface the two
    are the same None.  On None the script shows an error and stops,
    whatever the rest of the page would compute; on a loaded frame the
    rest of the page runs on that frame. *)
Theorem load_retail_data_total (pd : Pandas) (src : source) :
  load_retail_data pd src
  = match load_body pd src with
    | Ret df =>
        (Some df,
         [Success ("Data loaded: " ++ Format.count (List.length df)
                   ++ " records")%string])
    | Raise e => (None, [Error ("Database Connection Failed: " ++ e)%string])
    end
  /\ (fails pd src = true ->
      exists e, load_body pd src = Raise e
                /\ load_retail_data pd src
                   = (None,
                      [Error ("Database Connection Failed: " ++ e)%string]))
  /\ (forall err t,
        malformed pd t = true ->
        fst (load_retail_data pd (Unavailable err)) = None
        /\ fst (load_retail_data pd (Table t)) = None)
  /\ (forall (A : Type) (rest : list string -> DataFrame -> A),
        match fst (load_retail_data pd src) with
        | None =>
            script pd rest src
            = Stopped
                (snd (load_retail_data pd src)
                 ++ [Error "Could not load data. Please check your database connection."])
        | Some df =>
            script pd rest src
            = Continued (snd (load_retail_data pd src))
                        (rest (frame_columns src) df)
        end)
  /\ (fst (load_retail_data pd src) = None ->
      forall (A : Type) (rest rest' : list string -> DataFrame -> A),
        script pd rest src = script pd rest' src).
Proof.
  assert (failing : forall s, fails pd s = true ->
            exists e, load_body pd s = Raise e
                      /\ load_retail_data pd s
                         = (None,
                            [Error ("Database Connection Failed: "
                                    ++ e)%string])).
  { intros s bad. destruct (load_body_raises pd s bad) as [e raised].
    exists e. split; [exact raised|].
    now rewrite load_retail_data_outcome, raised. }
  split; [apply load_retail_data_outcome|]. split; [apply failing|].
  split; [|split].
  - intros err t bad. split; [reflexivity|].
    destruct (failing (Table t) bad) as (e & _ & ->). reflexivity.
  - intros A rest. unfold script.
    destruct (load_retail_data pd src) as [[df|] messages]; reflexivity.
  - intros none A rest rest'. unfold script.
    destruct (load_retail_data pd src) as [[df|] messages];
      [discriminate|reflexivity].
Qed.

Lemma load_retail_data_total_witness :
  fst (load_retail_data pandas2 (Table bad_date_table)) = None
  /\ fst (load_retail_data pandas2 (Table out_of_range_table)) = None
  /\ fst (load_retail_data pandas2
            (Table {| raw_columns := ["transaction_id"; "sale_date"]%string;
                      raw_rows := [] |})) = None.
Proof.
  pose proof (fun t =>
    proj1 (proj2 (proj2 (load_retail_data_total pandas2 (Table t))))
          "down"%string t) as both.
  split; [|split].
  - apply (both bad_date_table). reflexivity.
  - apply (both out_of_range_table). reflexivity.
  - apply (both {| raw_columns := ["transaction_id"; "sale_date"]%string;
                   raw_rows := [] |}). reflexivity.
Defined.

(** * Further properties of the code *)

(** ** Preprocessing *)

Lemma day_name_listed (d : Z) : In (Calendar.day_name d) Calendar.day_names.
Proof.
  unfold Calendar.day_name. apply nth_In.
  change (List.length Calendar.day_names) with 7%nat.
  pose proof (Z.mod_pos_bound (d + 3) 7 eq_refl). lia.
Qed.

Lemma month_of_range (d : Z) : 1 <= Calendar.month_of d <= 12.
Proof.
  unfold Calendar.month_of, Calendar.civil_of_days. cbn [fst snd].
  match goal with
  | |- context [if ?mp <? 10 then _ else _] => destruct (Z.ltb_spec mp 10)
  end; Z.div_mod_to_equations; lia.
Qed.

Lemma quarter_of_range (d : Z) : 1 <= Calendar.quarter_of d <= 4.
Proof.
  unfold Calendar.quarter_of. pose proof (month_of_range d).
  Z.div_mod_to_equations. lia.
Qed.

Lemma derive_preprocessed (raw : RawRow) (day : Z) :
  preprocessed (derive raw day).
Proof. unfold preprocessed, derive. cbn. tauto. Qed.

Lemma mapM_to_datetime_cells (pd : Pandas) (cells : list raw_date)
    (days : list Z) :
  mapM (to_datetime pd) cells = Ret days ->
  cells = map DateOf days /\ Forall (fun day => representable pd day = true) days.
Proof.
  revert days. induction cells as [|[day|text] t IH]; intros days.
  - intros [= <-]. now split.
  - cbn [mapM to_datetime bind].
    destruct (representable pd day) eqn:held; cbn [bind]; [|discriminate].
    destruct (mapM (to_datetime pd) t) as [days'|e]; cbn [bind];
      [|discriminate].
    intros [= <-]. destruct (IH days' eq_refl) as [-> all].
    split; [reflexivity|]. now constructor.
  - discriminate.
Qed.

Lemma load_body_table (pd : Pandas) (t : RawFrame) (df : DataFrame) :
  load_body pd (Table t) = Ret df ->
  exists days,
    map raw_sale_date (raw_rows t) = map DateOf days
    /\ df = map (fun rd => derive (fst rd) (snd rd)) (combine (raw_rows t) days).
Proof.
  unfold load_body. cbn [read_sql bind].
  destruct (getitem t "sale_date") as [[]|e]; cbn [bind]; [|discriminate].
  destruct (mapM (to_datetime pd) (map raw_sale_date (raw_rows t)))
    as [days|e] eqn:parsed; cbn [bind]; [|discriminate].
  destruct (getitem t "total_sale") as [[]|e]; cbn [bind]; [|discriminate].
  destruct (getitem t "cogs") as [[]|e]; cbn [bind]; [|discriminate].
  intros [= <-]. exists days. split; [|reflexivity].
  now apply (mapM_to_datetime_cells pd).
Qed.

Lemma loaded_some (pd : Pandas) (src : source) (df : DataFrame) :
  fst (load_retail_data pd src) = Some df -> load_body pd src = Ret df.
Proof.
  rewrite load_retail_data_outcome.
  destruct (load_body pd src) as [df'|e]; cbn [fst]; congruence.
Qed.

(** X1: a table that loads gives a frame with one row per table row, in the
    table's order, whose stored columns are the table's. *)
Theorem load_keeps_records (pd : Pandas) (t : RawFrame) (df : DataFrame) :
  fst (load_retail_data pd (Table t)) = Some df ->
  Forall2 same_record (raw_rows t) df.
Proof.
  intros loaded. apply loaded_some, load_body_table in loaded.
  destruct loaded as (days & dates & ->).
  revert days dates. induction (raw_rows t) as [|raw rows IH];
    intros [|day days] dates; try discriminate; cbn [combine map].
  - constructor.
  - injection dates as date dates. constructor; [|now apply IH].
    unfold same_record. cbn. tauto.
Qed.

Lemma load_keeps_records_witness :
  Forall2 same_record (raw_rows two_sales_table) two_sales.
Proof. apply (load_keeps_records pandas2). reflexivity. Defined.

(** X2: every row of a loaded frame carries the derived columns of its own
    stored columns, with a weekday name among the seven, a month in 1..12
    and a quarter in 1..4. *)
Theorem loaded_rows_preprocessed (pd : Pandas) (src : source)
    (df : DataFrame) :
  fst (load_retail_data pd src) = Some df ->
  Forall (fun r => preprocessed r
                   /\ In (week_day r) Calendar.day_names
                   /\ 1 <= month r <= 12
                   /\ 1 <= quarter r <= 4) df.
Proof.
  intros loaded. apply loaded_some in loaded.
  destruct src as [err|t]; [discriminate|].
  apply load_body_table in loaded. destruct loaded as (days & _ & ->).
  apply Forall_forall. intros r inr.
  apply in_map_iff in inr as ([raw day] & <- & _). cbn [fst snd].
  split; [apply derive_preprocessed|]. cbn.
  split; [apply day_name_listed|].
  split; [apply month_of_range|apply quarter_of_range].
Qed.

Lemma loaded_rows_preprocessed_witness :
  Forall (fun r => preprocessed r
                   /\ In (week_day r) Calendar.day_names
                   /\ 1 <= month r <= 12
                   /\ 1 <= quarter r <= 4) two_sales.
Proof.
  apply (loaded_rows_preprocessed pandas3 (Table two_sales_table)).
  reflexivity.
Defined.





(** ** KPIs *)

Lemma unique_acc_length {K : Type} (eqb : K -> K -> bool) (s seen : list K) :
  (List.length (Series.unique_acc eqb seen s) <= List.length s)%nat.
Proof.
  revert seen. induction s as [|x t IH]; intros seen; simpl; [lia|].
  destruct (Series.isin eqb x seen); [specialize (IH seen)|
                                      specialize (IH (x :: seen))];
    simpl; lia.
Qed.

Lemma nunique_le_length {K : Type} (eqb : K -> K -> bool) (s : list K) :
  (Series.nunique eqb s <= List.length s)%nat.
Proof. apply unique_acc_length. Qed.

Lemma zmax_zmin (d : Z) (s : list Z) : Series.zmin d s <= d <= Series.zmax d s.
Proof. induction s as [|x t IH]; simpl; lia. Qed.


Lemma fold_min_In (d : Z) (s : list Z) : In (fold_right Z.min d s) (d :: s).
Proof.
  induction s as [|x t IH]; cbn [fold_right]; [now left|].
  destruct (Z.min_spec x (fold_right Z.min d t)) as [[_ ->]|[_ ->]].
  - right. now left.
  - destruct IH as [<-|inx]; [now left|]. right. now right.
Qed.

Lemma fold_max_In (d : Z) (s : list Z) : In (fold_right Z.max d s) (d :: s).
Proof.
  induction s as [|x t IH]; cbn [fold_right]; [now left|].
  destruct (Z.max_spec x (fold_right Z.max d t)) as [[_ ->]|[_ ->]].
  - destruct IH as [<-|inx]; [now left|]. right. now right.
  - right. now left.
Qed.

Lemma zmin_In (d : Z) (s : list Z) : In (Series.zmin d (d :: s)) (d :: s).
Proof.
  unfold Series.zmin. cbn [fold_right].
  destruct (Z.min_spec d (fold_right Z.min d s)) as [[_ ->]|[_ ->]].
  - now left.
  - apply fold_min_In.
Qed.

Lemma zmax_In (d : Z) (s : list Z) : In (Series.zmax d (d :: s)) (d :: s).
Proof.
  unfold Series.zmax. cbn [fold_right].
  destruct (Z.max_spec d (fold_right Z.max d s)) as [[_ ->]|[_ ->]].
  - apply fold_max_In.
  - now left.
Qed.

(** X4: a KpiSet is returned for a non-empty frame only; its
    [total_transactions] is the number of rows, its [unique_customers] the
    number of distinct customer ids, at least one and at most the
    transactions, and its [date_range_days] the days from the earliest to
    the latest sale date of the frame, both included, hence at least
    one. *)
Theorem calculate_kpis_invariants (df : option DataFrame) (k : Kpis) :
  calculate_kpis df = Some k ->
  exists D,
    df = Some D
    /\ D <> []
    /\ total_transactions k = List.length D
    /\ (1 <= unique_customers k <= total_transactions k)%nat
    /\ (exists ids,
          NoDup ids
          /\ (forall c, In c ids <-> In c (col customer_id D))
          /\ unique_customers k = List.length ids)
    /\ (exists earliest latest,
          In earliest (col sale_date D)
          /\ In latest (col sale_date D)
          /\ (forall d, In d (col sale_date D) -> earliest <= d <= latest)
          /\ date_range_days k = latest - earliest + 1)
    /\ 1 <= date_range_days k.
Proof.
  intros some. pose proof (calculate_kpis_customers df k some) as customers.
  destruct df as [[|r D]|]; try discriminate.
  cbn [calculate_kpis empty] in some. injection some as <-.
  cbn [unique_customers total_transactions date_range_days] in *.
  exists (r :: D). split; [reflexivity|]. split; [discriminate|].
  split; [reflexivity|]. split; [|split; [|split]].
  - pose proof (nunique_le_length Z.eqb (col customer_id (r :: D))) as few.
    unfold col in few at 2. rewrite length_map in few.
    change (col customer_id (r :: D))
      with (customer_id r :: col customer_id D) in few.
    cbn [List.length] in *. lia.
  - exists (Series.unique Z.eqb (col customer_id (r :: D))).
    split; [apply (unique_NoDup Z.eqb Z.eqb_eq)|].
    split; [intros c; apply (unique_In Z.eqb Z.eqb_eq)|reflexivity].
  - unfold days_spanned, col. cbn [map].
    exists (Series.zmin (sale_date r) (sale_date r :: map sale_date D)),
           (Series.zmax (sale_date r) (sale_date r :: map sale_date D)).
    split; [apply zmin_In|]. split; [apply zmax_In|].
    split; [|reflexivity].
    intros d ind. split; [now apply zmin_le|now apply zmax_ge].
  - unfold days_spanned, col. cbn [map].
    pose proof (zmax_zmin (sale_date r) (sale_date r :: map sale_date D)).
    lia.
Qed.

Lemma calculate_kpis_invariants_witness :
  exists k, calculate_kpis (Some two_sales) = Some k
            /\ (1 <= unique_customers k <= total_transactions k)%nat
            /\ date_range_days k = 2.
Proof.
  eexists. split; [reflexivity|].
  destruct (calculate_kpis_invariants (Some two_sales) _ eq_refl)
    as (D & _ & _ & _ & customers & _ & _ & _).
  split; [exact customers|reflexivity].
Defined.



(** ** The largest group *)

Ltac order_facts :=
  repeat match goal with
         | H : Qltb _ _ = true |- _ => apply Qltb_true in H
         | H : Qltb _ _ = false |- _ => apply Qltb_false in H
         end.

Lemma best_from_cons (x y : string * Q) (l : Grouped) :
  best_from x (y :: l)
  = if Qltb (snd x) (snd (best_from y l)) then best_from y l else x.
Proof.
  revert x y. induction l as [|z l IH]; intros x y; [reflexivity|].
  change (best_from x (y :: z :: l))
    with (if Qltb (snd x) (snd y) then best_from y (z :: l)
          else best_from x (z :: l)).
  rewrite (IH y z), (IH x z).
  set (top := best_from z l).
  destruct (Qltb (snd x) (snd y)) eqn:xy;
    destruct (Qltb (snd y) (snd top)) eqn:yt;
    destruct (Qltb (snd x) (snd top)) eqn:xt;
    rewrite ?xy, ?xt; try reflexivity;
    exfalso; order_facts; lra.
Qed.

(** The first row of a descending stable sort is the first maximum. *)
Lemma sort_values_desc_head (x : string * Q) (l : Grouped) :
  hd_error (sort_values_desc (x :: l)) = Some (best_from x l).
Proof.
  unfold sort_values_desc. revert x.
  induction l as [|y l IH]; intros x; [reflexivity|].
  rewrite best_from_cons. specialize (IH y).
  change (stable_sort (fun a b => Qle_bool (snd b) (snd a)) (x :: y :: l))
    with (insert_sorted (fun a b => Qle_bool (snd b) (snd a)) x
            (stable_sort (fun a b => Qle_bool (snd b) (snd a)) (y :: l))).
  destruct (stable_sort (fun a b => Qle_bool (snd b) (snd a)) (y :: l))
    as [|h rest]; [discriminate|].
  injection IH as ->. cbn [insert_sorted]. unfold Qltb.
  now destruct (Qle_bool (snd (best_from y l)) (snd x)).
Qed.

(** The first maximum: nothing before it reaches it, nothing after it
    exceeds it. *)
Lemma best_from_first_max (x : string * Q) (l : Grouped) :
  exists before after,
    x :: l = before ++ best_from x l :: after
    /\ (forall y, In y before -> (snd y < snd (best_from x l))%Q)
    /\ (forall y, In y after -> (snd y <= snd (best_from x l))%Q).
Proof.
  revert x. induction l as [|y l IH]; intros x.
  - exists [], []. repeat split; intros y [].
  - cbn [best_from]. destruct (Qltb (snd x) (snd y)) eqn:xy.
    + apply Qltb_true in xy.
      destruct (IH y) as (before & after & split_l & lower & upper).
      exists (x :: before), after. split; [now rewrite split_l|].
      split; [|exact upper].
      intros z [<-|inz]; [|now apply lower].
      assert (y_le : (snd y <= snd (best_from y l))%Q).
      { destruct before as [|b before'].
        - injection split_l as <- _. lra.
        - injection split_l as <- _.
          apply Qlt_le_weak, lower. now left. }
      lra.
    + apply Qltb_false in xy.
      destruct (IH x) as (before & after & split_l & lower & upper).
      destruct before as [|b before'].
      * injection split_l as same rest. exists [], (y :: after).
        split; [now rewrite <- same, rest|].
        split; [intros z []|].
        intros z [<-|inz]; [rewrite <- same; lra|now apply upper].
      * injection split_l as <- rest. exists (x :: y :: before'), after.
        split; [cbn [app]; do 2 f_equal; exact rest|]. split; [|exact upper].
        assert (x_lt : (snd x < snd (best_from x l))%Q)
          by (apply lower; now left).
        intros z [<-|[<-|inz]]; [assumption|lra|].
        apply lower. now right.
Qed.

Lemma best_from_max (x : string * Q) (l : Grouped) :
  In (best_from x l) (x :: l)
  /\ forall y, In y (x :: l) -> (snd y <= snd (best_from x l))%Q.
Proof.
  destruct (best_from_first_max x l) as (before & after & -> & lower & upper).
  split; [apply in_elt|].
  intros y iny. apply in_app_or in iny as [iny|[<-|iny]].
  - apply Qlt_le_weak. now apply lower.
  - lra.
  - now apply upper.
Qed.

(** X7: on a non-empty selection the snapshot's top category and its
    revenue are the first row of the revenue-by-category table, and the
    category is the one the insights name. *)
Theorem top_category_heads_category_sales (r : Row) (D : DataFrame) :
  exists s k v,
    Snapshot.compute (r :: D) = Ret s
    /\ hd_error (category_sales (r :: D)) = Some (k, v)
    /\ Snapshot.top_category s = Some k
    /\ Snapshot.top_category_revenue s = Fin v
    /\ idxmax (groupby_sum category total_sale (r :: D)) = Ret k.
Proof.
  unfold category_sales, Snapshot.compute. cbn [empty negb].
  destruct (groupby_sum category total_sale (r :: D)) as [|kv g] eqn:groups.
  { apply groupby_sum_nil in groups. discriminate. }
  rewrite sort_values_desc_head. cbn [idxmax smax bind].
  eexists. exists (fst (best_from kv g)), (snd (best_from kv g)).
  split; [reflexivity|]. cbn. now destruct (best_from kv g).
Qed.

(** ** Group keys in alphabetical order *)

Lemma string_leb_iff (a b : string) :
  String.leb a b = true <-> a = b \/ OrderedTypeEx.String_as_OT.lt a b.
Proof.
  unfold String.leb.
  pose proof (OrderedTypeEx.String_as_OT.cmp_lt a b) as less.
  pose proof (OrderedTypeEx.String_as_OT.cmp_eq a b) as same.
  pose proof (OrderedTypeEx.String_as_OT.cmp_lt b a) as more.
  pose proof (OrderedTypeEx.String_as_OT.cmp_antisym b a) as flip.
  unfold OrderedTypeEx.String_as_OT.cmp in *.
  destruct (String.compare a b) eqn:order.
  - split; [intros _; left; now apply same | reflexivity].
  - split; [intros _; right; now apply less | reflexivity].
  - split; [discriminate|]. intros [->|lt].
    + pose proof (proj2 (OrderedTypeEx.String_as_OT.cmp_eq b b) eq_refl)
        as refl.
      unfold OrderedTypeEx.String_as_OT.cmp in refl. congruence.
    + apply less in lt. discriminate.
Qed.

Lemma string_leb_trans (a b c : string) :
  String.leb a b = true -> String.leb b c = true -> String.leb a c = true.
Proof.
  rewrite !string_leb_iff. intros [->|ab] [->|bc]; auto.
  right. eapply OrderedTypeEx.String_as_OT.lt_trans; eauto.
Qed.

Lemma string_leb_false (a b : string) :
  String.leb a b = false -> String.leb b a = true.
Proof.
  intros no. destruct (String.leb_total a b) as [yes|yes]; congruence.
Qed.

Lemma group_keys_sorted (ks : list string) :
  StronglySorted (fun a b => String.leb a b = true) (group_keys ks).
Proof.
  apply stable_sort_sorted.
  - apply string_leb_false.
  - apply string_leb_trans.
Qed.

Lemma StronglySorted_after {A : Type} (R : A -> A -> Prop) (a b : list A)
    (x : A) :
  StronglySorted R (a ++ x :: b) -> Forall (R x) b.
Proof.
  induction a as [|y a IH]; cbn [app]; intros sorted.
  - now inversion sorted.
  - apply IH. now inversion sorted.
Qed.

Section GroupedTable.
Variables (key : Row -> string) (val : Row -> Q).

Lemma groupby_sum_keys (df : DataFrame) :
  map fst (groupby_sum key val df) = group_keys (col key df).
Proof. unfold groupby_sum. rewrite map_map. apply map_id. Qed.

Lemma groupby_sum_In (k : string) (v : Q) (df : DataFrame) :
  In (k, v) (groupby_sum key val df)
  <-> In k (col key df) /\ v = Series.sum (col val (rows_of key k df)).
Proof.
  unfold groupby_sum. rewrite in_map_iff. split.
  - intros (k' & [= -> <-] & ink). split; [|reflexivity].
    exact (proj1 (group_keys_In _ _) ink).
  - intros (ink & ->). exists k. split; [reflexivity|].
    exact (proj2 (group_keys_In _ _) ink).
Qed.
End GroupedTable.

(** X8: the top category of the KPIs and of the insights is a category of
    the selection whose revenue no other category exceeds, reported with
    that revenue; of several categories with that revenue it is the
    alphabetically first. *)
Theorem top_category_is_largest (r : Row) (D : DataFrame) :
  exists top_cat,
    idxmax (groupby_sum category total_sale (r :: D)) = Ret top_cat
    /\ In top_cat (col category (r :: D))
    /\ smax (groupby_sum category total_sale (r :: D))
       = Fin (Series.sum (col total_sale (rows_of category top_cat (r :: D))))
    /\ forall k, In k (col category (r :: D)) ->
         (Series.sum (col total_sale (rows_of category k (r :: D)))
          <= Series.sum (col total_sale (rows_of category top_cat (r :: D))))%Q
         /\ ((Series.sum (col total_sale (rows_of category k (r :: D)))
              == Series.sum
                   (col total_sale (rows_of category top_cat (r :: D))))%Q ->
             String.leb top_cat k = true).
Proof.
  pose proof (groupby_sum_In category total_sale) as entries.
  pose proof (groupby_sum_keys category total_sale (r :: D)) as keys.
  pose proof (group_keys_sorted (col category (r :: D))) as sorted.
  rewrite <- keys in sorted. clear keys.
  destruct (groupby_sum category total_sale (r :: D)) as [|kv g] eqn:groups.
  { apply groupby_sum_nil in groups. discriminate. }
  destruct (best_from_first_max kv g)
    as (before & after & parts & lower & upper).
  destruct (best_from kv g) as [top v] eqn:best.
  assert (found : In (top, v) (kv :: g)).
  { rewrite parts. apply in_elt. }
  rewrite <- groups in found.
  apply (proj1 (entries _ _ _)) in found as [intop ->].
  exists top. cbn [idxmax smax]. rewrite best. cbn [fst snd].
  split; [reflexivity|]. split; [assumption|]. split; [reflexivity|].
  intros k ink.
  assert (listed : In (k, Series.sum (col total_sale
                                         (rows_of category k (r :: D))))
                      (kv :: g)).
  { rewrite <- groups. apply (proj2 (entries _ _ _)). now split. }
  rewrite parts in listed, sorted.
  apply in_app_or in listed as [early|[same|late]].
  - apply lower in early. cbn [snd] in early. split; [lra|].
    intros tie. lra.
  - injection same as <- _. split; [lra|]. intros _.
    apply string_leb_iff. now left.
  - split; [exact (upper _ late)|]. intros _.
    rewrite map_app in sorted. cbn [map fst] in sorted.
    apply StronglySorted_after in sorted.
    rewrite Forall_forall in sorted. apply sorted.
    now apply (in_map fst) in late.
Qed.

(** X9: the revenue-by-category table lists each category of the
    selection once, with the sum of its [total_sale], in non-increasing
    order of that sum. *)
Theorem category_sales_table (D : DataFrame) :
  StronglySorted (fun a b => (snd b <= snd a)%Q) (category_sales D)
  /\ NoDup (map fst (category_sales D))
  /\ forall k v,
       In (k, v) (category_sales D)
       <-> In k (col category D)
           /\ v = Series.sum (col total_sale (rows_of category k D)).
Proof.
  unfold category_sales, sort_values_desc. split; [|split].
  - eapply StronglySorted_weaken;
      [|apply (stable_sort_sorted (fun a b : string * Q =>
                                     Qle_bool (snd b) (snd a)))].
    + intros a b le. now apply Qle_bool_iff.
    + intros x y. apply Qle_bool_total.
    + intros x y z xy yz. exact (Qle_bool_trans _ _ _ yz xy).
  - eapply Permutation_NoDup.
    + apply Permutation_map, stable_sort_perm.
    + rewrite groupby_sum_keys. apply group_keys_NoDup.
  - intros k v. rewrite stable_sort_In. apply groupby_sum_In.
Qed.

(** X10: the sales-by-gender slices list each gender of the selection
    once, in alphabetical order, each with the sum of [total_sale] over
    the rows of that gender. *)
Theorem gender_sales_slices (D : DataFrame) :
  NoDup (map fst (gender_sales D))
  /\ StronglySorted (fun a b => String.leb a b = true)
                    (map fst (gender_sales D))
  /\ (forall g, In g (map fst (gender_sales D)) <-> In g (col gender D))
  /\ forall g v,
       In (g, v) (gender_sales D)
       <-> In g (col gender D)
           /\ v = Series.sum (col total_sale (rows_of gender g D)).
Proof.
  unfold gender_sales.
  rewrite groupby_sum_keys.
  split; [apply group_keys_NoDup|]. split; [apply group_keys_sorted|].
  split; [intros g; apply group_keys_In|].
  intros g v. apply groupby_sum_In.
Qed.

(** ** More on the filter *)

Lemma filter_twice {A : Type} (P Q : A -> bool) (l : list A) :
  filter P (filter Q l) = filter (fun x => Q x && P x) l.
Proof.
  induction l as [|x t IH]; [reflexivity|]. cbn [filter].
  destruct (Q x); cbn [filter andb]; [destruct (P x)|]; now rewrite IH.
Qed.

Lemma filter_length_le {A : Type} (P : A -> bool) (l : list A) :
  (List.length (filter P l) <= List.length l)%nat.
Proof.
  induction l as [|x t IH]; [reflexivity|]. cbn [filter].
  destruct (P x); cbn [List.length]; lia.
Qed.

Lemma Forall_filter {A : Type} (R : A -> Prop) (P : A -> bool) (l : list A) :
  Forall R l -> Forall R (filter P l).
Proof.
  rewrite !Forall_forall. intros all x inx.
  apply filter_In in inx. now apply all.
Qed.

(** X11: filtering twice with the same criteria changes nothing more, two
    filters can be applied in either order, and a filtered frame is no
    longer than the frame and keeps every property of all its rows. *)
Theorem filtered_data_composes (D : DataFrame) (c1 c2 : Criteria) :
  filtered_data (filtered_data D c1) c1 = filtered_data D c1
  /\ filtered_data (filtered_data D c1) c2
     = filtered_data (filtered_data D c2) c1
  /\ (List.length (filtered_data D c1) <= List.length D)%nat
  /\ forall R : Row -> Prop, Forall R D -> Forall R (filtered_data D c1).
Proof.
  rewrite !filtered_data_filter. split; [|split; [|split]].
  - rewrite filter_twice. apply filter_ext. intros r.
    now destruct (retainedb c1 r).
  - rewrite !filter_twice. apply filter_ext. intros r. apply andb_comm.
  - apply filter_length_le.
  - intros R. apply Forall_filter.
Qed.

(** X12: a selection without any category, or without any gender, or with
    its date range reversed, matches no record at all. *)
Theorem empty_selection_matches_nothing (D : DataFrame) (c : Criteria) :
  selected_categories c = [] \/ selected_genders c = []
  \/ date_to c < date_from c ->
  filtered_data D c = [].
Proof.
  intros nothing. rewrite filtered_data_filter.
  induction D as [|r t IH]; [reflexivity|]. cbn [filter].
  assert (out : retainedb c r = false).
  { unfold retainedb. destruct nothing as [-> | [-> | reversed]].
    - cbn. now rewrite andb_false_r.
    - cbn. apply andb_false_r.
    - destruct (Z.leb_spec (date_from c) (sale_date r)),
        (Z.leb_spec (sale_date r) (date_to c)); cbn; try reflexivity. lia. }
  now rewrite out.
Qed.

Lemma empty_selection_matches_nothing_witness :
  filtered_data two_sales
    {| date_from := 19723; date_to := 19724; selected_categories := [];
       selected_genders := ["Male"; "Female"]%string |} = [].
Proof. apply empty_selection_matches_nothing. left. reflexivity. Defined.

(** X13: the widgets offer defaults exactly for a non-empty frame; the
    default range runs from the earliest to the latest sale date present,
    and the default category and gender lists hold the values present, each
    once. *)
Theorem default_criteria_wellformed (D : DataFrame) :
  (default_criteria D = None <-> D = [])
  /\ forall c, default_criteria D = Some c ->
       date_from c <= date_to c
       /\ In (date_from c) (col sale_date D)
       /\ In (date_to c) (col sale_date D)
       /\ NoDup (selected_categories c)
       /\ NoDup (selected_genders c)
       /\ (forall k, In k (selected_categories c) <-> In k (col category D))
       /\ (forall g, In g (selected_genders c) <-> In g (col gender D)).
Proof.
  unfold default_criteria. split.
  - destruct D as [|r D]; cbn; split; congruence.
  - intros c. destruct (col sale_date D) as [|d s] eqn:dates; [discriminate|].
    intros [= <-]. cbn [date_from date_to selected_categories selected_genders].
    split; [|split; [|split; [|split; [|split; [|split]]]]].
    + pose proof (zmin_le d d (d :: s) (or_introl eq_refl)).
      pose proof (zmax_ge d d (d :: s) (or_introl eq_refl)). lia.
    + apply zmin_In.
    + apply zmax_In.
    + apply (unique_NoDup String.eqb String.eqb_eq).
    + apply (unique_NoDup String.eqb String.eqb_eq).
    + intros k. apply (unique_In String.eqb String.eqb_eq).
    + intros g. apply (unique_In String.eqb String.eqb_eq).
Qed.

Lemma default_criteria_wellformed_witness :
  exists c, default_criteria two_sales = Some c /\ date_from c <= date_to c.
Proof.
  eexists. split; [reflexivity|].
  apply (proj2 (default_criteria_wellformed two_sales)). reflexivity.
Defined.

(** ** The two transaction tables *)

Lemma selection_shown (D chosen rest : list Row) :
  Permutation D (chosen ++ rest) ->
  Permutation (map select_columns D)
              (map select_columns chosen ++ map select_columns rest).
Proof.
  intros perm. rewrite <- map_app. now apply Permutation_map.
Qed.

(** X17: the five transactions of the top table have a profit at least
    that of every transaction left out, those of the bottom table a profit
    at most that of every transaction left out; with five transactions or
    fewer both tables show them all. *)
Theorem top_trans_are_extremes (D : DataFrame) :
  (exists rest,
      Permutation (map select_columns D) (top_trans D ++ rest)
      /\ forall t u, In t (top_trans D) -> In u rest ->
                     (shown_profit u <= shown_profit t)%Q)
  /\ (exists rest,
        Permutation (map select_columns D) (bottom_trans D ++ rest)
        /\ forall t u, In t (bottom_trans D) -> In u rest ->
                       (shown_profit t <= shown_profit u)%Q)
  /\ ((List.length D <= 5)%nat ->
      Permutation (map select_columns D) (top_trans D)
      /\ Permutation (map select_columns D) (bottom_trans D)).
Proof.
  unfold top_trans, bottom_trans. split; [|split].
  - destruct (nlargest_selects profit 5 D) as (rest & perm & above).
    exists (map select_columns rest). split; [now apply selection_shown|].
    intros t u int inu.
    apply in_map_iff in int as (r & <- & inr).
    apply in_map_iff in inu as (r' & <- & inr').
    exact (above r r' inr inr').
  - destruct (nsmallest_selects profit 5 D) as (rest & perm & below).
    exists (map select_columns rest). split; [now apply selection_shown|].
    intros t u int inu.
    apply in_map_iff in int as (r & <- & inr).
    apply in_map_iff in inu as (r' & <- & inr').
    exact (below r r' inr inr').
  - intros few. unfold nlargest, nsmallest.
    rewrite !firstn_all2 by (now rewrite stable_sort_length).
    split; apply Permutation_map, stable_sort_perm.
Qed.

Lemma top_trans_are_extremes_witness :
  Permutation (map select_columns two_sales) (top_trans two_sales)
  /\ Permutation (map select_columns two_sales) (bottom_trans two_sales).
Proof.
  apply (proj2 (proj2 (top_trans_are_extremes two_sales))). cbn. lia.
Defined.

(** ** Grouping by any key *)

Section GroupAny.
Context {K : Type} (eqb : K -> K -> bool).
Hypothesis eqb_eq : forall a b, eqb a b = true <-> a = b.
Variables (key : Row -> K) (val : Row -> Q).

Lemma eqb_same (a : K) : eqb a a = true.
Proof. now apply eqb_eq. Qed.

Lemma count_one_key_any (x : K) (ks : list K) :
  NoDup ks -> In x ks ->
  list_sum (map (fun k => if eqb x k then 1%nat else 0%nat) ks) = 1%nat.
Proof.
  induction ks as [|k t IH]; intros nodup inx; [contradiction|].
  inversion nodup as [|? ? fresh nodup_t]; subst.
  cbn [map list_sum fold_right].
  fold (list_sum (map (fun k => if eqb x k then 1%nat else 0%nat) t)).
  destruct (eqb x k) eqn:same.
  - apply eqb_eq in same. subst k.
    assert (rest : list_sum (map (fun k => if eqb x k then 1%nat else 0%nat) t)
                   = 0%nat).
    { clear IH nodup nodup_t inx. induction t as [|k t IH]; [reflexivity|].
      cbn [map list_sum fold_right].
      destruct (eqb x k) eqn:same.
      - apply eqb_eq in same. subst k. exfalso. apply fresh. now left.
      - cbn. apply IH. intros inx. apply fresh. now right. }
    rewrite rest. reflexivity.
  - destruct inx as [->|inx].
    + rewrite eqb_same in same. discriminate.
    + now rewrite (IH nodup_t inx).
Qed.

Lemma list_sum_pointwise {X : Type} (f g : X -> nat) (l : list X) :
  list_sum (map (fun x => (f x + g x)%nat) l)
  = (list_sum (map f l) + list_sum (map g l))%nat.
Proof.
  induction l as [|x t IH]; [reflexivity|].
  cbn [map list_sum fold_right] in *. fold (list_sum (map f t)).
  fold (list_sum (map g t)).
  fold (list_sum (map (fun x => (f x + g x)%nat) t)). lia.
Qed.

Lemma grouped_counts_any (ks : list K) (df : DataFrame) :
  NoDup ks -> (forall r, In r df -> In (key r) ks) ->
  list_sum (map (fun k => List.length (filter (fun x => eqb (key x) k) df)) ks)
  = List.length df.
Proof.
  intros nodup. induction df as [|r t IH]; intros all.
  - clear nodup all. induction ks as [|k ks' IHk]; [reflexivity|].
    cbn [map list_sum fold_right] in *. exact IHk.
  - rewrite (map_ext _ (fun k => ((if eqb (key r) k then 1 else 0)
                                  + List.length
                                      (filter (fun x => eqb (key x) k) t))%nat)).
    + rewrite list_sum_pointwise, count_one_key_any
        by (auto; apply all; now left).
      rewrite IH by (intros r' inr; apply all; now right).
      reflexivity.
    + intros k. cbn [filter].
      now destruct (eqb (key r) k).
Qed.

Lemma group_nil (k : K) (df : DataFrame) :
  filter (fun r => eqb (key r) k) df = [] <-> ~ In k (map key df).
Proof.
  clear val. induction df as [|r t IH]; cbn [filter map In]; [tauto|].
  destruct (eqb (key r) k) eqn:same.
  - apply eqb_eq in same. split; [discriminate|]. tauto.
  - assert (key r <> k).
    { intros e. apply eqb_eq in e. congruence. }
    rewrite IH. tauto.
Qed.
End GroupAny.

Lemma group_keys_Z_In (k : Z) (ks : list Z) :
  In k (group_keys_Z ks) <-> In k ks.
Proof.
  unfold group_keys_Z.
  now rewrite stable_sort_In, (unique_In Z.eqb Z.eqb_eq).
Qed.

Lemma group_keys_Z_NoDup (ks : list Z) : NoDup (group_keys_Z ks).
Proof.
  unfold group_keys_Z.
  eapply Permutation_NoDup; [apply stable_sort_perm|].
  apply (unique_NoDup Z.eqb Z.eqb_eq).
Qed.

Lemma sorted_NoDup_strict (l : list Z) :
  StronglySorted (fun a b => (a <=? b) = true) l -> NoDup l ->
  StronglySorted Z.lt l.
Proof.
  induction 1 as [|x t _ IH all]; intros nodup; constructor.
  - apply IH. now inversion nodup.
  - inversion nodup as [|? ? fresh _]; subst.
    rewrite Forall_forall in *. intros y iny.
    specialize (all y iny). apply Z.leb_le in all.
    assert (x <> y) by (intros ->; contradiction). lia.
Qed.

Lemma group_keys_Z_sorted (ks : list Z) : StronglySorted Z.lt (group_keys_Z ks).
Proof.
  apply sorted_NoDup_strict; [|apply group_keys_Z_NoDup].
  apply stable_sort_sorted.
  - intros x y no. apply Z.leb_le. apply Z.leb_gt in no. lia.
  - intros x y z. rewrite !Z.leb_le. lia.
Qed.

(** ** The monthly trend *)

Lemma to_timestamp_step (p : Z) : to_timestamp p + 28 <= to_timestamp (p + 1).
Proof.
  unfold to_timestamp, days_of_civil.
  destruct (Z.leb_spec (p mod 12 + 1) 2), (Z.ltb_spec 2 (p mod 12 + 1)),
    (Z.leb_spec ((p + 1) mod 12 + 1) 2), (Z.ltb_spec 2 ((p + 1) mod 12 + 1));
    Z.div_mod_to_equations; lia.
Qed.

Lemma to_timestamp_lt (p q : Z) : p < q -> to_timestamp p < to_timestamp q.
Proof.
  intros less.
  assert (ahead : forall n, 0 <= n ->
            to_timestamp p < to_timestamp (p + 1 + n)).
  { apply natlike_ind.
    - rewrite Z.add_0_r. pose proof (to_timestamp_step p). lia.
    - intros n _ IH. pose proof (to_timestamp_step (p + 1 + n)).
      replace (p + 1 + Z.succ n) with (p + 1 + n + 1) by lia. lia. }
  replace q with (p + 1 + (q - p - 1)) by lia. apply ahead. lia.
Qed.

(** The first days of the twelve months of the 400 years of an era, taken
    back to their year of era, month and day. *)
Lemma first_days_table :
  forallb
    (fun y =>
       forallb
         (fun k =>
            let yoe := Z.of_nat y in
            let mp := Z.of_nat k in
            let doe := yoe * 365 + yoe / 4 - yoe / 100 + (153 * mp + 2) / 5 in
            let yoe' := (doe - doe / 1460 + doe / 36524 - doe / 146096) / 365 in
            let doy := doe - (365 * yoe' + yoe' / 4 - yoe' / 100) in
            let mp' := (5 * doy + 2) / 153 in
            (0 <=? doe) && (doe <? 146097) && (yoe' =? yoe) && (mp' =? mp)
            && (doy - (153 * mp' + 2) / 5 + 1 =? 1))
         (seq 0 12))
    (seq 0 400)
  = true.
Proof. vm_compute. reflexivity. Qed.

Lemma first_day_back (yoe mp : Z) :
  0 <= yoe < 400 -> 0 <= mp < 12 ->
  let doe := yoe * 365 + yoe / 4 - yoe / 100 + (153 * mp + 2) / 5 in
  let yoe' := (doe - doe / 1460 + doe / 36524 - doe / 146096) / 365 in
  let doy := doe - (365 * yoe' + yoe' / 4 - yoe' / 100) in
  let mp' := (5 * doy + 2) / 153 in
  0 <= doe < 146097 /\ yoe' = yoe /\ mp' = mp
  /\ doy - (153 * mp' + 2) / 5 + 1 = 1.
Proof.
  intros years months.
  pose proof first_days_table as table.
  rewrite forallb_forall in table.
  specialize (table (Z.to_nat yoe)).
  rewrite forallb_forall in table.
  assert (iny : In (Z.to_nat yoe) (seq 0 400)) by (apply in_seq; lia).
  assert (inm : In (Z.to_nat mp) (seq 0 12)) by (apply in_seq; lia).
  specialize (table iny (Z.to_nat mp) inm).
  rewrite !Z2Nat.id in table by lia.
  cbv zeta in table |- *.
  rewrite !andb_true_iff in table.
  destruct table as ((((low & high) & year) & month) & day).
  apply Z.leb_le in low. apply Z.ltb_lt in high.
  apply Z.eqb_eq in year, month, day.
  repeat split; assumption.
Qed.

(** Back and forth between a first of a month and its day number. *)
Lemma civil_of_first_day (y m : Z) :
  1 <= m <= 12 ->
  Calendar.civil_of_days (days_of_civil y m 1) = (y, m, 1).
Proof.
  intros months. unfold days_of_civil, Calendar.civil_of_days. cbv zeta.
  set (y' := if m <=? 2 then y - 1 else y).
  set (era := y' / 400).
  set (yoe := y' - era * 400).
  set (mp := if 2 <? m then m - 3 else m + 9).
  assert (years : 0 <= yoe < 400).
  { unfold yoe, era. Z.div_mod_to_equations. lia. }
  assert (range : 0 <= mp < 12).
  { unfold mp. destruct (Z.ltb_spec 2 m); lia. }
  destruct (first_day_back yoe mp years range)
    as (bounds & year & month & day).
  cbv zeta in bounds, year, month, day.
  replace ((153 * mp + 2) / 5 + 1 - 1) with ((153 * mp + 2) / 5) by lia.
  set (doe := yoe * 365 + yoe / 4 - yoe / 100 + (153 * mp + 2) / 5) in *.
  replace (era * 146097 + doe - 719468 + 719468)
    with (era * 146097 + doe) by lia.
  replace ((era * 146097 + doe) / 146097) with era.
  2:{ rewrite Z.div_add_l by lia. rewrite (Z.div_small doe) by lia. lia. }
  replace (era * 146097 + doe - era * 146097) with doe by lia.
  rewrite year in month, day. rewrite month in day.
  rewrite year, month.
  assert (back : (if mp <? 10 then mp + 3 else mp - 9) = m).
  { unfold mp. destruct (Z.ltb_spec 2 m).
    - destruct (Z.ltb_spec (m - 3) 10); lia.
    - destruct (Z.ltb_spec (m + 9) 10); lia. }
  rewrite back.
  assert (whole : yoe + era * 400 + (if m <=? 2 then 1 else 0) = y).
  { unfold yoe, y'. destruct (Z.leb_spec m 2); lia. }
  rewrite whole. f_equal. exact day.
Qed.

(** The stamp of a monthly period is the first day of that month. *)
Lemma to_timestamp_first_day (day : Z) :
  Calendar.civil_of_days (to_timestamp (to_period day))
  = (Calendar.year_of day, Calendar.month_of day, 1).
Proof.
  unfold to_timestamp, to_period.
  pose proof (month_of_range day) as months.
  set (y := Calendar.year_of day) in *.
  set (m := Calendar.month_of day) in *.
  replace (1970 + ((y - 1970) * 12 + (m - 1)) / 12) with y
    by (Z.div_mod_to_equations; lia).
  replace (((y - 1970) * 12 + (m - 1)) mod 12 + 1) with m
    by (Z.div_mod_to_equations; lia).
  now apply civil_of_first_day.
Qed.

Lemma to_period_same_month (a b : Z) :
  (to_period a =? to_period b)
  = (Calendar.year_of a =? Calendar.year_of b)
    && (Calendar.month_of a =? Calendar.month_of b).
Proof.
  unfold to_period.
  pose proof (month_of_range a). pose proof (month_of_range b).
  destruct (Z.eqb_spec (Calendar.year_of a) (Calendar.year_of b)),
    (Z.eqb_spec (Calendar.month_of a) (Calendar.month_of b)); cbn [andb];
    [apply Z.eqb_eq|apply Z.eqb_neq..]; lia.
Qed.

Lemma rows_in_period_same_month (r : Row) (D : DataFrame) :
  rows_in_period (to_period (sale_date r)) D
  = filter (fun x =>
              (Calendar.year_of (sale_date x)
               =? Calendar.year_of (sale_date r))
              && (Calendar.month_of (sale_date x)
                  =? Calendar.month_of (sale_date r))) D.
Proof.
  unfold rows_in_period. apply filter_ext. intros x.
  apply to_period_same_month.
Qed.

(** X19: the monthly trend has one point per month with transactions, in
    chronological order.  The stamp of a point is the first day of its
    month; the point carries the sum of [total_sale] and the number of the
    transactions of that month, at least one; every transaction is counted
    in the point of its month, and the counts add up to the number of
    transactions. *)
Theorem monthly_sales_trend (D : DataFrame) :
  list_sum (map snd (monthly_sales D)) = List.length D
  /\ StronglySorted Z.lt (map (fun g => fst (fst g)) (monthly_sales D))
  /\ List.length (monthly_sales D)
     = Series.nunique Z.eqb (map to_period (col sale_date D))
  /\ Forall
       (fun g =>
          exists r,
            let same_month x :=
              (Calendar.year_of (sale_date x)
               =? Calendar.year_of (sale_date r))
              && (Calendar.month_of (sale_date x)
                  =? Calendar.month_of (sale_date r)) in
            In r D
            /\ Calendar.civil_of_days (fst (fst g))
               = (Calendar.year_of (sale_date r),
                  Calendar.month_of (sale_date r), 1)
            /\ snd (fst g) = Series.sum (col total_sale (filter same_month D))
            /\ snd g = List.length (filter same_month D)
            /\ (1 <= snd g)%nat)
       (monthly_sales D)
  /\ (forall r,
        In r D ->
        exists g,
          In g (monthly_sales D)
          /\ Calendar.civil_of_days (fst (fst g))
             = (Calendar.year_of (sale_date r),
                Calendar.month_of (sale_date r), 1)).
Proof.
  pose proof (group_keys_Z_NoDup (map to_period (col sale_date D))) as nodup.
  assert (covered : forall r, In r D ->
            In (to_period (sale_date r))
               (group_keys_Z (map to_period (col sale_date D)))).
  { intros r inr. apply group_keys_Z_In. unfold col. rewrite map_map.
    now apply (in_map (fun r => to_period (sale_date r))). }
  unfold monthly_sales, groupby_period.
  rewrite !map_map. cbn [fst snd].
  unfold col in nodup, covered. rewrite map_map in nodup, covered.
  split; [|split; [|split; [|split]]].
  - rewrite (map_ext _ (fun p => List.length (rows_in_period p D)))
      by (intros p; apply length_map).
    exact (grouped_counts_any Z.eqb Z.eqb_eq
             (fun r => to_period (sale_date r)) _ D nodup covered).
  - apply StronglySorted_map.
    eapply StronglySorted_weaken; [|apply group_keys_Z_sorted].
    intros a b. apply to_timestamp_lt.
  - rewrite length_map. unfold group_keys_Z.
    now rewrite stable_sort_length.
  - apply Forall_forall. intros g ing.
    apply in_map_iff in ing as (p & <- & inp). cbn [fst snd].
    apply (proj1 (group_keys_Z_In _ _)) in inp.
    apply in_map_iff in inp as (r & <- & inr).
    exists r. cbv zeta.
    rewrite <- rows_in_period_same_month.
    split; [exact inr|]. split; [apply to_timestamp_first_day|].
    split; [reflexivity|]. split; [apply length_map|].
    unfold col. rewrite length_map.
    assert (inside : In r (rows_in_period (to_period (sale_date r)) D)).
    { apply filter_In. split; [exact inr|apply Z.eqb_refl]. }
    destruct (rows_in_period (to_period (sale_date r)) D);
      [contradiction|cbn; lia].
  - intros r inr. eexists. split.
    + apply in_map_iff. exists (to_period (sale_date r)).
      split; [reflexivity|]. now apply covered.
    + cbn [fst]. apply to_timestamp_first_day.
Qed.

(** ** Category against profitability *)

(** X20: the category-profitability points list each category of the
    selection once, in alphabetical order; the [total_sales] of a point is
    the category's revenue of the revenue-by-category grouping, and its
    [avg_profit] is the mean of [profit] over the rows of the category,
    of which there is at least one, so that it is never nan. *)
Theorem category_profit_points (D : DataFrame) :
  map (fun g => (fst (fst g), snd g)) (category_profit D)
  = groupby_sum category total_sale D
  /\ NoDup (map (fun g => fst (fst g)) (category_profit D))
  /\ StronglySorted (fun a b => String.leb a b = true)
                    (map (fun g => fst (fst g)) (category_profit D))
  /\ (forall c, In c (map (fun g => fst (fst g)) (category_profit D))
                <-> In c (col category D))
  /\ Forall (fun g =>
               exists r rows a,
                 rows_of category (fst (fst g)) D = r :: rows
                 /\ snd (fst g) = Series.mean (col profit (r :: rows))
                 /\ snd (fst g) = Fin a)
            (category_profit D).
Proof.
  unfold category_profit. rewrite !map_map. cbn [fst snd].
  split; [reflexivity|]. rewrite map_id.
  split; [apply group_keys_NoDup|]. split; [apply group_keys_sorted|].
  split; [intros c; apply group_keys_In|].
  apply Forall_forall. intros g ing.
  apply in_map_iff in ing as (k & <- & ink). cbn [fst snd].
  apply (proj1 (group_keys_In _ _)) in ink.
  destruct (rows_of category k D) as [|r rows] eqn:group.
  - apply (proj1 (rows_of_nil category total_sale k D)) in group.
    contradiction.
  - exists r, rows. eexists. split; [reflexivity|]. split; reflexivity.
Qed.

(** ** The monthly heatmap *)

Lemma month_cases (m : Z) :
  1 <= m <= 12 ->
  m = 1 \/ m = 2 \/ m = 3 \/ m = 4 \/ m = 5 \/ m = 6 \/ m = 7 \/ m = 8
  \/ m = 9 \/ m = 10 \/ m = 11 \/ m = 12.
Proof. lia. Qed.

Lemma month_name_valid (m : Z) :
  1 <= m <= 12 -> month_name m = Ret (abbr m).
Proof.
  intros valid. unfold month_name.
  destruct (Z.leb_spec 1 m), (Z.leb_spec m 12); try lia. reflexivity.
Qed.

Lemma abbr_injective (m m' : Z) :
  1 <= m <= 12 -> 1 <= m' <= 12 -> abbr m = abbr m' -> m = m'.
Proof.
  intros valid valid' same.
  apply month_cases in valid, valid'.
  repeat destruct valid as [->|valid]; try subst m;
    repeat destruct valid' as [->|valid']; try subst m';
    first [reflexivity | discriminate same].
Qed.

Lemma abbr_listed (n : string) :
  In n month_abbr <-> exists m, 1 <= m <= 12 /\ abbr m = n.
Proof.
  split.
  - intros inn. apply (In_nth _ _ ""%string) in inn as (i & bound & <-).
    change (List.length month_abbr) with 12%nat in bound.
    exists (Z.of_nat i + 1). split; [lia|].
    unfold abbr. f_equal. lia.
  - intros (m & valid & <-). unfold abbr. apply nth_In.
    change (List.length month_abbr) with 12%nat. lia.
Qed.

Lemma pair_eqb_eq (a b : Z * Z) : pair_eqb a b = true <-> a = b.
Proof.
  destruct a as [y m], b as [y' m']. unfold pair_eqb. cbn [fst snd].
  rewrite andb_true_iff, !Z.eqb_eq. split; [intros [-> ->]|intros [= -> ->]];
    auto.
Qed.

Lemma cell_eqb_eq (a b : Z * string) : cell_eqb a b = true <-> a = b.
Proof.
  destruct a as [y n], b as [y' n']. unfold cell_eqb. cbn [fst snd].
  rewrite andb_true_iff, Z.eqb_eq, String.eqb_eq.
  split; [intros [-> ->]|intros [= -> ->]]; auto.
Qed.

Lemma has_duplicates_NoDup (cells : list (Z * string)) :
  NoDup cells -> has_duplicates cells = false.
Proof.
  induction 1 as [|c t fresh _ IH]; [reflexivity|].
  cbn [has_duplicates]. rewrite IH, orb_false_r.
  now apply (isin_false cell_eqb cell_eqb_eq).
Qed.

(** The (year, month) groups of a frame. *)
Lemma month_keys_In (ym : Z * Z) (D : DataFrame) :
  In ym (stable_sort pair_leb
           (Series.unique pair_eqb (map (fun r => (year r, month r)) D)))
  <-> In ym (map (fun r => (year r, month r)) D).
Proof.
  now rewrite stable_sort_In, (unique_In pair_eqb pair_eqb_eq).
Qed.

Lemma month_keys_NoDup (D : DataFrame) :
  NoDup (stable_sort pair_leb
           (Series.unique pair_eqb (map (fun r => (year r, month r)) D))).
Proof.
  eapply Permutation_NoDup; [apply stable_sort_perm|].
  apply (unique_NoDup pair_eqb pair_eqb_eq).
Qed.

Section Heatmap.
Variables (sales gain : Z * Z -> Q).

Let entry (ym : Z * Z) : Z * string * Q :=
  (fst ym, abbr (snd ym), sales ym).

Lemma with_month_name_valid (keys : list (Z * Z)) :
  Forall (fun ym => 1 <= snd ym <= 12) keys ->
  with_month_name
    (map (fun ym => (fst ym, snd ym, sales ym, gain ym)) keys)
  = Ret (map entry keys).
Proof.
  unfold with_month_name.
  induction 1 as [|ym t valid _ IH]; [reflexivity|].
  cbn [map mapM]. rewrite (month_name_valid _ valid). cbn [bind].
  rewrite IH. reflexivity.
Qed.

Lemma entries_NoDup (keys : list (Z * Z)) :
  Forall (fun ym => 1 <= snd ym <= 12) keys -> NoDup keys ->
  NoDup (map fst (map entry keys)).
Proof.
  intros valid nodup. rewrite map_map. cbn [entry fst].
  apply NoDup_map_NoDup_ForallPairs; [|assumption].
  rewrite Forall_forall in valid.
  intros [y m] [y' m'] ina inb [= -> same]. f_equal.
  apply abbr_injective; [exact (valid _ ina)|exact (valid _ inb)|assumption].
Qed.

Lemma cell_lookup_month (keys : list (Z * Z)) (y m : Z) :
  Forall (fun ym => 1 <= snd ym <= 12) keys -> 1 <= m <= 12 ->
  cell_lookup (y, abbr m) (map entry keys)
  = if Series.isin pair_eqb (y, m) keys then Fin (sales (y, m)) else NaN.
Proof.
  intros valid valid_m.
  induction valid as [|[y' m'] t valid' _ IH]; [reflexivity|].
  cbn [map entry cell_lookup fst snd Series.isin existsb].
  unfold cell_eqb, pair_eqb at 1. cbn [fst snd] in *.
  destruct (Z.eqb_spec y y') as [<-|other_year]; cbn [andb orb]; [|exact IH].
  destruct (String.eqb_spec (abbr m) (abbr m')) as [same|other].
  - apply abbr_injective in same; [|assumption..]. subst m'.
    now rewrite Z.eqb_refl.
  - destruct (Z.eqb_spec m m') as [->|_]; [congruence|exact IH].
Qed.

Lemma cell_lookup_other (keys : list (Z * Z)) (y : Z) (n : string) :
  Forall (fun ym => 1 <= snd ym <= 12) keys -> ~ In n month_abbr ->
  cell_lookup (y, n) (map entry keys) = NaN.
Proof.
  intros valid unnamed.
  induction valid as [|[y' m'] t valid' _ IH]; [reflexivity|].
  cbn [map entry cell_lookup fst snd].
  unfold cell_eqb. cbn [fst snd] in *.
  destruct (String.eqb_spec n (abbr m')) as [->|_].
  - exfalso. apply unnamed. apply abbr_listed. eauto.
  - now rewrite andb_false_r.
Qed.
End Heatmap.

Lemma in_cell_month (y m : Z) (r : Row) :
  1 <= month r <= 12 -> 1 <= m <= 12 ->
  in_cell y (abbr m) r = pair_eqb (year r, month r) (y, m).
Proof.
  intros valid valid_m. unfold in_cell, pair_eqb. cbn [fst snd].
  rewrite (month_name_valid _ valid). f_equal.
  destruct (String.eqb_spec (abbr (month r)) (abbr m)) as [same|other].
  - apply abbr_injective in same; [|assumption..]. symmetry.
    now apply Z.eqb_eq.
  - symmetry. apply Z.eqb_neq. congruence.
Qed.

Lemma in_cell_other (y : Z) (n : string) (r : Row) :
  1 <= month r <= 12 -> ~ In n month_abbr -> in_cell y n r = false.
Proof.
  intros valid unnamed. unfold in_cell.
  rewrite (month_name_valid _ valid).
  destruct (String.eqb_spec (abbr (month r)) n) as [<-|_].
  - exfalso. apply unnamed. apply abbr_listed. eauto.
  - apply andb_false_r.
Qed.

Lemma filter_none {A : Type} (P : A -> bool) (l : list A) :
  (forall x, In x l -> P x = false) -> filter P l = [].
Proof.
  induction l as [|x t IH]; intros none; [reflexivity|].
  cbn [filter]. rewrite (none x (or_introl eq_refl)).
  apply IH. intros y iny. apply none. now right.
Qed.

(** A cell of the pivot is the sum over the cell's rows, or nan. *)
Lemma cell_lookup_value (D : DataFrame) (y : Z) (n : string) :
  Forall (fun r => 1 <= month r <= 12) D ->
  cell_lookup (y, n)
    (map (fun ym => (fst ym, abbr (snd ym),
                     Series.sum (col total_sale (rows_in_month ym D))))
         (stable_sort pair_leb
            (Series.unique pair_eqb (map (fun r => (year r, month r)) D))))
  = cell_value D y n.
Proof.
  intros valid.
  assert (valid_keys :
            Forall (fun ym : Z * Z => 1 <= snd ym <= 12)
              (stable_sort pair_leb
                 (Series.unique pair_eqb
                    (map (fun r => (year r, month r)) D)))).
  { rewrite Forall_forall in *. intros ym inym.
    apply (proj1 (month_keys_In _ _)) in inym.
    apply in_map_iff in inym as (r & <- & inr). exact (valid r inr). }
  rewrite Forall_forall in valid. unfold cell_value.
  destruct (in_dec string_dec n month_abbr) as [named|unnamed].
  - apply abbr_listed in named as (m & valid_m & <-).
    rewrite (cell_lookup_month
               (fun ym => Series.sum (col total_sale (rows_in_month ym D))))
      by assumption.
    rewrite (filter_ext_in (in_cell y (abbr m))
               (fun r => pair_eqb (year r, month r) (y, m)))
      by (intros r inr; apply in_cell_month; auto).
    fold (rows_in_month (y, m) D).
    destruct (Series.isin pair_eqb (y, m)
                (stable_sort pair_leb
                   (Series.unique pair_eqb
                      (map (fun r => (year r, month r)) D)))) eqn:known.
    + apply (isin_In pair_eqb pair_eqb_eq) in known.
      apply (proj1 (month_keys_In _ _)) in known.
      destruct (rows_in_month (y, m) D) eqn:rows; [|reflexivity].
      apply (proj1 (group_nil pair_eqb pair_eqb_eq
                      (fun r => (year r, month r)) (y, m) D)) in rows.
      contradiction.
    + apply (isin_false pair_eqb pair_eqb_eq) in known.
      rewrite month_keys_In in known.
      apply (proj2 (group_nil pair_eqb pair_eqb_eq
                      (fun r => (year r, month r)) (y, m) D)) in known.
      unfold rows_in_month. now rewrite known.
  - rewrite (cell_lookup_other
               (fun ym => Series.sum (col total_sale (rows_in_month ym D))))
      by assumption.
    rewrite filter_none; [reflexivity|].
    intros r inr. apply in_cell_other; auto.
Qed.

(** X21: on rows whose month lies in 1..12, as in every loaded frame, the
    heatmap's pivot never fails.  Its rows are the years of the selection
    in ascending order; its columns are the abbreviated names of the months
    of the selection, each once, in alphabetical order of the names (not in
    calendar order); and each cell holds the sum of [total_sale] over the
    rows of that year and month, or nan when there is none. *)
Theorem pivot_sales_heatmap (D : DataFrame) :
  Forall (fun r => 1 <= month r <= 12) D ->
  exists pv,
    pivot_sales D = Ret pv
    /\ StronglySorted Z.lt (pivot_index pv)
    /\ (forall y, In y (pivot_index pv) <-> In y (col year D))
    /\ StronglySorted (fun a b => String.leb a b = true) (pivot_columns pv)
    /\ NoDup (pivot_columns pv)
    /\ (forall n, In n (pivot_columns pv)
                  <-> exists r, In r D /\ abbr (month r) = n)
    /\ pivot_values pv
       = map (fun y => map (fun n => cell_value D y n) (pivot_columns pv))
             (pivot_index pv).
Proof.
  intros valid.
  assert (valid_keys :
            Forall (fun ym : Z * Z => 1 <= snd ym <= 12)
              (stable_sort pair_leb
                 (Series.unique pair_eqb
                    (map (fun r => (year r, month r)) D)))).
  { rewrite Forall_forall in *. intros ym inym.
    apply (proj1 (month_keys_In _ _)) in inym.
    apply in_map_iff in inym as (r & <- & inr). exact (valid r inr). }
  unfold pivot_sales, monthly_matrix.
  rewrite with_month_name_valid by assumption. cbn [bind].
  unfold pivot.
  rewrite has_duplicates_NoDup
    by (apply entries_NoDup; [assumption|apply month_keys_NoDup]).
  eexists. split; [reflexivity|].
  cbn [pivot_index pivot_columns pivot_values].
  rewrite !map_map. cbn [fst snd].
  split; [apply group_keys_Z_sorted|]. split; [|split; [|split; [|split]]].
  - intros y. rewrite group_keys_Z_In, in_map_iff. split.
    + intros (ym & <- & inym). apply (proj1 (month_keys_In _ _)) in inym.
      apply in_map_iff in inym as (r & <- & inr). cbn [fst].
      now apply (in_map year).
    + intros iny. apply in_map_iff in iny as (r & <- & inr).
      exists (year r, month r). split; [reflexivity|].
      apply month_keys_In.
      now apply (in_map (fun r => (year r, month r))).
  - apply group_keys_sorted.
  - apply group_keys_NoDup.
  - intros n. rewrite group_keys_In, in_map_iff. split.
    + intros (ym & <- & inym). apply (proj1 (month_keys_In _ _)) in inym.
      apply in_map_iff in inym as (r & <- & inr). eauto.
    + intros (r & inr & <-). exists (year r, month r).
      split; [reflexivity|]. apply month_keys_In.
      now apply (in_map (fun r => (year r, month r))).
  - apply map_ext. intros y. apply map_ext. intros n.
    now apply cell_lookup_value.
Qed.

Lemma pivot_sales_heatmap_witness :
  exists pv, pivot_sales two_sales = Ret pv
             /\ pivot_index pv = [2024] /\ pivot_columns pv = ["Jan"%string].
Proof.
  destruct (pivot_sales_heatmap two_sales) as (pv & computed & _).
  - repeat constructor; cbn; lia.
  - exists pv. split; [exact computed|].
    assert (known : pivot_sales two_sales
                    = Ret {| pivot_index := [2024];
                             pivot_columns := ["Jan"%string];
                             pivot_values := [[Fin (100 + (200 + 0))]] |})
      by reflexivity.
    rewrite known in computed. injection computed as <-. split; reflexivity.
Defined.

(** ** Insights without a margin *)

Lemma fmean_all_nan (s : list fval) :
  Forall (fun m => m = NaN) s -> Series.fmean s = NaN.
Proof.
  intros all. unfold Series.fmean.
  rewrite filter_none; [reflexivity|].
  rewrite Forall_forall in all. intros m inm. now rewrite (all m inm).
Qed.

(** X22: when no row of a non-empty selection has a defined margin (every
    sale and cost is 0), the insights report the average margin as "nan%"
    and give neither the warning nor the praise. *)
Theorem insights_without_margin (r : Row) (D : DataFrame) :
  Forall (fun x => profit_margin x = NaN) (r :: D) ->
  exists revenue top_category best_day,
    generate_auto_insights (r :: D)
    = Ret [revenue; top_category; best_day;
           "Average profit margin is **nan%**."%string].
Proof.
  intros undefined.
  destruct (generate_auto_insights_lines r D)
    as (top_cat & best_day & _ & _ & lines).
  rewrite lines, fmean_all_nan.
  - do 3 eexists. reflexivity.
  - unfold col. apply Forall_map. exact undefined.
Qed.

Lemma insights_without_margin_witness :
  exists revenue top_category best_day,
    generate_auto_insights zero_sale
    = Ret [revenue; top_category; best_day;
           "Average profit margin is **nan%**."%string].
Proof.
  apply insights_without_margin. repeat constructor.
Defined.
